(** * Chat panel and agent-mode page: state and update protocol

    A shallow embedding of the two client components

      - [ChatPanel]      (conversation log, input buffer, busy flag, reply timer)
      - [AgentModePage]  (thought / action / execution-step logs, pause flag)

    The methods of the two classes are written as programs of a small
    state-and-exception monad over the runtime they touch: the fields of the
    instance, the timer queue of the event loop, the wall clock read by
    [Date.now()], and a trace of the effects that leave the component
    (subscriber notifications, scheduled timers, console output, DOM calls).
    Rendering and styling are not modelled. *)

From Stdlib Require Import String Ascii NArith ZArith QArith Bool Lia List.
From Stdlib Require Import DecimalString Sorted.
Import ListNotations.
Local Close Scope Q_scope.
Local Open Scope list_scope.

(* ===================================================================== *)
(** ** The JavaScript runtime, as far as the components use it            *)
(* ===================================================================== *)

Module JS.

(** A string is a sequence of UTF-16 code units. *)
Definition jsstring := list N.

(** The code units of an ASCII literal of the source. *)
Definition lit (s : string) : jsstring := map N_of_ascii (list_ascii_of_string s).

(** The quotation mark, U+0022. *)
Definition dquote : N := 34%N.
(** Line feed, U+000A: the escape [\n] inside a template literal. *)
Definition LF : N := 10%N.

Definition jsstring_eqb (a b : jsstring) : bool :=
  if list_eq_dec N.eq_dec a b then true else false.

(** [String.prototype.trim] strips WhiteSpace and LineTerminator code points
    (ECMA-262, sec. 12.2 and 12.3): TAB, VT, FF, SP, NBSP, ZWNBSP, the
    Unicode space separators, LF, CR, LS and PS. *)
Definition isWhiteSpace (c : N) : bool :=
  (existsb (N.eqb c)
     [0x9; 0xA; 0xB; 0xC; 0xD; 0x20; 0xA0; 0x1680;
      0x2028; 0x2029; 0x202F; 0x205F; 0x3000; 0xFEFF]%N
   || ((0x2000 <=? c) && (c <=? 0x200A))%N)%bool.

Fixpoint trimStart (s : jsstring) : jsstring :=
  match s with
  | [] => []
  | c :: s' => if isWhiteSpace c then trimStart s' else s
  end.

Definition trimEnd (s : jsstring) : jsstring := rev (trimStart (rev s)).

Definition trim (s : jsstring) : jsstring := trimEnd (trimStart s).

(** Truthiness of a string: only the empty string is falsy. *)
Definition truthy (s : jsstring) : bool :=
  match s with [] => false | _ :: _ => true end.

(** Truthiness of a value that may be [undefined] or [null]. *)
Definition truthy_bool (b : option bool) : bool :=
  match b with Some true => true | _ => false end.

(** The exceptions the modelled code can raise: reading a property of
    [undefined] or [null], or spreading it. *)
Inductive Error : Type :=
| TypeError (what : string).

(** The effects of a run that leave the instance, in the order they happen. *)
Inductive Effect (S C : Type) : Type :=
| Notify (observable : string) (snapshot : S)
    (* an observable ran its subscribers; [snapshot] is the instance as
       they find it *)
| SetTimeout (callback : C) (delay : N)
| ConsoleLog (args : list jsstring)
| ConsoleError (e : Error)
| ConsoleErrorText (text : jsstring)
| Uncaught (e : Error)
    (* an exception that escaped a timer callback *)
| Dom (call : string).
    (* a call into the document: style change, scrollIntoView, navigation *)

Arguments Notify {S C}.
Arguments SetTimeout {S C}.
Arguments ConsoleLog {S C}.
Arguments ConsoleError {S C}.
Arguments ConsoleErrorText {S C}.
Arguments Uncaught {S C}.
Arguments Dom {S C}.

(** The runtime around one instance with fields [S] whose timer callbacks are
    named by [C]. *)
Record World (S C : Type) : Type := mkWorld {
  self : S;                 (* [this] *)
  now : N;                  (* the event loop's time, in ms *)
  timers : list (N * C);    (* pending timeouts (due time, callback), oldest first *)
  wallclock : nat -> Z;     (* the successive readings of [Date.now()] *)
  reads : nat;              (* how many readings were taken *)
  trace : list (Effect S C) (* effects so far, oldest first *)
}.

Arguments mkWorld {S C}.
Arguments self {S C}.
Arguments now {S C}.
Arguments timers {S C}.
Arguments wallclock {S C}.
Arguments reads {S C}.
Arguments trace {S C}.

Section Monad.
Context {S C : Type}.

Definition with_self (f : S -> S) (w : World S C) : World S C :=
  mkWorld (f (self w)) (now w) (timers w) (wallclock w) (reads w) (trace w).

Definition with_trace (e : Effect S C) (w : World S C) : World S C :=
  mkWorld (self w) (now w) (timers w) (wallclock w) (reads w) (trace w ++ [e]).

(** A run ends normally with a value, or by an exception; either way the
    world reached is kept. *)
Inductive Outcome (A : Type) : Type :=
| Ok (a : A) (w : World S C)
| Throw (e : Error) (w : World S C).

Definition M (A : Type) : Type := World S C -> Outcome A.

Definition ret {A} (a : A) : M A := fun w => Ok A a w.

Definition bind {A B} (m : M A) (k : A -> M B) : M B :=
  fun w => match m w with
           | Ok _ a w' => k a w'
           | Throw _ e w' => Throw B e w'
           end.

Definition throw {A} (e : Error) : M A := fun w => Throw A e w.

Definition emit (e : Effect S C) : M unit := fun w => Ok unit tt (with_trace e w).

(** Property access on a value that may be [undefined]. *)
Definition must {A} (property : string) (v : option A) : M A :=
  match v with
  | Some a => ret a
  | None => throw (TypeError property)
  end.

(** [setTimeout(callback, delay)]; the handle is dropped, as in the source. *)
Definition setTimeout (callback : C) (delay : N) : M unit :=
  fun w => Ok unit tt
    (with_trace (SetTimeout callback delay)
       (mkWorld (self w) (now w) (timers w ++ [((now w + delay)%N, callback)])
                (wallclock w) (reads w) (trace w))).

(** [Date.now()] *)
Definition Date_now : M Z :=
  fun w => Ok Z (wallclock w (reads w))
    (mkWorld (self w) (now w) (timers w) (wallclock w) (Datatypes.S (reads w)) (trace w)).

Definition console_log (args : list jsstring) : M unit := emit (ConsoleLog args).

(** The world a run ends in, whichever way it ends. *)
Definition world_of {A} (o : Outcome A) : World S C :=
  match o with Ok _ _ w => w | Throw _ _ w => w end.
End Monad.

Arguments Outcome : clear implicits.
Arguments M : clear implicits.
Arguments Ok {S C A}.
Arguments Throw {S C A}.

Declare Scope js_scope.
Delimit Scope js_scope with js.
Notation "x <- m ;; k" := (bind m (fun x => k))
  (at level 61, m at next level, right associativity) : js_scope.
Notation "m ;; k" := (bind m (fun _ => k))
  (at level 61, right associativity) : js_scope.

(** *** The event loop: timers *)

Section Timers.
Context {S C : Type}.

(** The pending timeout that runs next, and the ones that stay: the earliest
    due time wins, and among equal due times the one set first. *)
Fixpoint pick (ts : list (N * C)) : option ((N * C) * list (N * C)) :=
  match ts with
  | [] => None
  | t :: ts' =>
      match pick ts' with
      | None => Some (t, [])
      | Some (u, rest) =>
          if (fst t <=? fst u)%N then Some (t, ts') else Some (u, t :: rest)
      end
  end.

(** Time passes up to [t] with nothing to run. *)
Definition idle (t : N) (w : World S C) : World S C :=
  mkWorld (self w) (N.max (now w) t) (timers w) (wallclock w) (reads w) (trace w).

(** A task of the event loop: the handler runs to its end; an exception that
    escapes it is reported and the loop goes on. *)
Definition task (handler : M S C unit) (w : World S C) : World S C :=
  match handler w with
  | Ok _ w' => w'
  | Throw e w' => with_trace (Uncaught e) w'
  end.

(** The next pending timeout runs, if there is one; [run] is the body of
    each callback. *)
Definition fire_next (run : C -> M S C unit) (w : World S C) : World S C :=
  match pick (timers w) with
  | None => w
  | Some ((due, cb), rest) =>
      task (run cb)
        (mkWorld (self w) (N.max (now w) due) rest (wallclock w) (reads w) (trace w))
  end.

(** The loop runs every timeout due by time [t], in order, and then waits
    until [t].  [None]: more than [fuel] timeouts were due. *)
Fixpoint run_until (run : C -> M S C unit) (t : N) (fuel : nat) (w : World S C)
  : option (World S C) :=
  match pick (timers w) with
  | None => Some (idle t w)
  | Some ((due, _), _) =>
      if (due <=? t)%N then
        match fuel with
        | O => None
        | Datatypes.S fuel' => run_until run t fuel' (fire_next run w)
        end
      else Some (idle t w)
  end.
End Timers.

End JS.

(* ===================================================================== *)
(** ** grainjs observables, as the components use them                    *)
(* ===================================================================== *)

Module GrainJS.
Import JS.
Local Open Scope js_scope.

(** [Observable<T>] holds a value and a list of subscribers.  Disposing it
    (which happens when its owner is disposed) drops both: it then reads as
    [undefined] and has no list left to notify.  A later [set] on it stores
    the new value all the same, before the notification fails: the
    observable then holds a value again, still without subscribers. *)
Inductive Observable (T : Type) : Type :=
| Live (value : T)
| Disposed
| Overwritten (value : T).

Arguments Live {T}.
Arguments Disposed {T}.
Arguments Overwritten {T}.

(** A field of the instance that holds an observable. *)
Record Field (S T : Type) : Type := mkField {
  fname : string;
  fget : S -> Observable T;
  fput : Observable T -> S -> S
}.

Arguments mkField {S T}.
Arguments fname {S T}.
Arguments fget {S T}.
Arguments fput {S T}.

Section Ops.
Context {S C T : Type}.

(** [obs.get()]: the stored value, without subscribing. *)
Definition get (f : Field S T) : M S C (option T) :=
  fun w => Ok (match fget f (self w) with
               | Live v | Overwritten v => Some v
               | Disposed => None
               end) w.

(** [obs.set(v)]: when [v !== obs.get()], stores [v] and then runs the
    subscribers at once, before [set] returns.  [same] is the identity test
    [===] between the stored and the new value.  On a disposed observable
    the value is stored and the notification raises: there is no list of
    subscribers to walk.  (The values the components store are never
    [undefined], so a new value always differs from the [undefined] a
    disposed observable reads as.) *)
Definition set (f : Field S T) (same : T -> T -> bool) (v : T) : M S C unit :=
  fun w => match fget f (self w) with
           | Live old =>
               if same old v then Ok tt w
               else let w' := with_self (fput f (Live v)) w in
                    Ok tt (with_trace (Notify (fname f) (self w')) w')
           | Disposed =>
               Throw (TypeError "emit") (with_self (fput f (Overwritten v)) w)
           | Overwritten old =>
               if same old v then Ok tt w
               else Throw (TypeError "emit") (with_self (fput f (Overwritten v)) w)
           end.
End Ops.

(** [obs.get().push(x)]: [get] hands out the stored array itself, so the push
    grows the array the observable holds; no subscriber runs. *)
Definition get_push {S C T} (f : Field S (list T)) (x : T) : M S C unit :=
  fun w => match fget f (self w) with
           | Live l => Ok tt (with_self (fput f (Live (l ++ [x]))) w)
           | Disposed => Throw (TypeError "push") w
           | Overwritten l => Ok tt (with_self (fput f (Overwritten (l ++ [x]))) w)
           end.

(** [obs.dispose()]: the subscribers and the value are dropped. *)
Definition dispose_observable {T} (o : Observable T) : Observable T := Disposed.

(** [obs.set([...obs.get()])]: a copy of the stored array is a new object,
    never identical to the stored one, so the subscribers always run. *)
Definition set_copy {S C T} (f : Field S (list T)) : M S C unit :=
  a <- get f ;;
  l <- must "Symbol.iterator" a ;;
  set f (fun _ _ => false) l.

(** [obs.set([...])] with an array literal, again a new object. *)
Definition set_fresh {S C T} (f : Field S (list T)) (l : list T) : M S C unit :=
  set f (fun _ _ => false) l.

End GrainJS.

(* ===================================================================== *)
(** ** ChatPanel                                                          *)
(* ===================================================================== *)

Module ChatPanel.
Import JS GrainJS.
Local Open Scope js_scope.

Inductive Sender : Type := user | ai.

(** Modelled from the spec: the type [ChatMessage], declared in
    app/client/models/ChatHistory, which is not among the sources.  Its
    fields are those of the data model: a sender, [user] or [ai], the message
    text, an optional suggested formula and an optional error with a message. *)
Record ChatMessage : Type := mkChatMessage {
  sender : Sender;
  message : jsstring;
  formula : option jsstring;
  error : option jsstring    (* [error.message] *)
}.

(** The fields of a [ChatPanel] instance. *)
Record Fields : Type := mkFields {
  _messages : Observable (list ChatMessage);
  _inputText : Observable jsstring;
  _thinking : Observable bool;
  _messagesEndRef : option N;  (* the element to scroll to, or null *)
  isDisposed : bool            (* [isDisposed()], inherited from [Disposable] *)
}.

(** The two closures the panel hands to [setTimeout]. *)
Inductive Callback : Type :=
| CbResponse   (* the placeholder reply of [_sendMessage], 1500 ms *)
| CbScroll.    (* the scroll of [_scrollToBottom], 100 ms *)

Definition World := JS.World Fields Callback.
Definition M := JS.M Fields Callback.

Definition f_messages : Field Fields (list ChatMessage) :=
  mkField "_messages" _messages
    (fun o s => mkFields o (_inputText s) (_thinking s) (_messagesEndRef s)
                  (isDisposed s)).

Definition f_inputText : Field Fields jsstring :=
  mkField "_inputText" _inputText
    (fun o s => mkFields (_messages s) o (_thinking s) (_messagesEndRef s)
                  (isDisposed s)).

Definition f_thinking : Field Fields bool :=
  mkField "_thinking" _thinking
    (fun o s => mkFields (_messages s) (_inputText s) o (_messagesEndRef s)
                  (isDisposed s)).

Definition welcome : ChatMessage :=
  mkChatMessage ai
    (lit "Hi! I'm your AI assistant. I can help you with formulas, data analysis, "
     ++ lit "and understanding your spreadsheet. What would you like to know?")
    None None.

Definition placeholder : ChatMessage :=
  mkChatMessage ai
    (lit "I'm ready to help! The AI backend integration is coming soon. "
     ++ lit "In the meantime, I can show you what the interface will look like.")
    None None.

Definition user_message (text : jsstring) : ChatMessage :=
  mkChatMessage user text None None.

(** The field initialisers of the class. *)
Definition fresh : Fields := mkFields (Live []) (Live []) (Live false) None false.

(** The body of the constructor. *)
Definition constructor : M unit :=
  set_fresh f_messages [welcome].

(** [new ChatPanel(gristDoc)] in a runtime that starts at time [t0] with the
    wall clock [clk] and no timer pending. *)
Definition create (t0 : N) (clk : nat -> Z) : Outcome Fields Callback unit :=
  constructor (mkWorld fresh t0 [] clk 0 []).

(** [_scrollToBottom] *)
Definition _scrollToBottom : M unit :=
  setTimeout CbScroll 100.

(** The closure of [_scrollToBottom]. *)
Definition scroll_callback : M unit :=
  fun w => match _messagesEndRef (self w) with
           | Some _ => emit (Dom "scrollIntoView") w
           | None => ret tt w
           end.

(** The closure [_sendMessage] hands to [setTimeout]. *)
Definition response_callback : M unit :=
  get_push f_messages placeholder ;;
  set_copy f_messages ;;
  set f_thinking Bool.eqb false ;;
  _scrollToBottom.

(** [_sendMessage] *)
Definition _sendMessage : M unit :=
  text <- get f_inputText ;;
  text <- must "trim" text ;;
  let message := trim text in
  busy <- get f_thinking ;;
  if negb (truthy message) || truthy_bool busy then ret tt
  else
    get_push f_messages (user_message message) ;;
    set_copy f_messages ;;
    set f_inputText jsstring_eqb [] ;;
    emit (Dom "document.querySelector") ;;
    set f_thinking Bool.eqb true ;;
    _scrollToBottom ;;
    setTimeout CbResponse 1500.

Definition run_callback (c : Callback) : M unit :=
  match c with
  | CbResponse => response_callback
  | CbScroll => scroll_callback
  end.

(** *** What can happen to a panel *)

(** [dispose()], inherited from grainjs' [Disposable]: what the instance owns
    is disposed, that is the three observables made with
    [Observable.create(this, ...)].  The panel registers nothing else with
    its owner; in particular the pending timeouts stay where they are.  On a
    panel that is disposed already the call only writes an error to the
    console. *)
Definition dispose (w : World) : World :=
  if isDisposed (self w)
  then with_trace
         (ConsoleErrorText (lit "Error disposing ChatPanel which is already disposed")) w
  else with_self
         (fun s => mkFields (dispose_observable (_messages s))
                     (dispose_observable (_inputText s))
                     (dispose_observable (_thinking s))
                     (_messagesEndRef s) true) w.

(** [_applyFormula], [_previewFormula], [_showChatMenu]: console output only. *)
Definition _applyFormula (formula : jsstring) : M unit :=
  console_log [lit "Apply formula:"; formula].

Definition _previewFormula (formula : jsstring) : M unit :=
  console_log [lit "Preview formula:"; formula].

Definition _showChatMenu : M unit :=
  console_log [lit "Show chat menu"].

(** The handler of the textarea's input event. *)
Definition on_input (value : jsstring) : M unit :=
  set f_inputText jsstring_eqb value ;;
  emit (Dom "_autoResizeTextarea").

(** [this._sendMessage().catch(console.error)], on Enter and on a click on
    the send button. *)
Definition on_send : M unit :=
  fun w => match _sendMessage w with
           | Ok _ w' => Ok tt w'
           | Throw e w' => emit (ConsoleError e) w'
           end.

Inductive Op : Type :=
| OpInput (value : jsstring)       (* the user edits the textarea *)
| OpSend                           (* Enter, or a click on the send button *)
| OpMount (elem : N)               (* buildDom created the element to scroll to *)
| OpApplyFormula (formula : jsstring)
| OpPreviewFormula (formula : jsstring)
| OpChatMenu
| OpTimer                          (* the event loop runs the next timeout *)
| OpDispose.                       (* the panel is torn down *)

Definition step (op : Op) (w : World) : World :=
  match op with
  | OpInput value => task (on_input value) w
  | OpSend => task on_send w
  | OpMount elem =>
      with_self (fun s => mkFields (_messages s) (_inputText s) (_thinking s) (Some elem)
                            (isDisposed s)) w
  | OpApplyFormula formula => task (_applyFormula formula) w
  | OpPreviewFormula formula => task (_previewFormula formula) w
  | OpChatMenu => task _showChatMenu w
  | OpTimer => fire_next run_callback w
  | OpDispose => dispose w
  end.

Definition steps (ops : list Op) (w : World) : World :=
  fold_left (fun w op => step op w) ops w.

(** The states a panel can be in: made by the constructor, then any
    sequence of events. *)
Inductive reachable : World -> Prop :=
| reach_create t0 clk w : create t0 clk = Ok tt w -> reachable w
| reach_step op w : reachable w -> reachable (step op w).

End ChatPanel.

(* ===================================================================== *)
(** ** JSON.stringify, for the sample schema                              *)
(* ===================================================================== *)

Module JSON.
Import JS.

#[local] Set Warnings "-register-all".

(** The values the page serialises: strings, integers, arrays, objects. *)
Inductive Json : Type :=
| JString (s : jsstring)
| JNumber (n : Z)
| JArray (items : list Json)
| JObject (members : list (jsstring * Json)).

Definition hex_digit (d : N) : N :=
  if (d <? 10)%N then (48 + d)%N else (87 + d)%N.

(** [\uXXXX], in lower-case hexadecimal. *)
Definition unicode_escape (c : N) : jsstring :=
  [92; 117;
   hex_digit (c / 4096 mod 16); hex_digit (c / 256 mod 16);
   hex_digit (c / 16 mod 16); hex_digit (c mod 16)]%N.

Definition is_high_surrogate (c : N) : bool := ((0xD800 <=? c) && (c <=? 0xDBFF))%N.
Definition is_low_surrogate (c : N) : bool := ((0xDC00 <=? c) && (c <=? 0xDFFF))%N.

(** The body of QuoteJSONString (ECMA-262, sec. 25.5.2.3). *)
Fixpoint quote_units (s : jsstring) : jsstring :=
  match s with
  | [] => []
  | c :: s' =>
      if (c =? 8)%N then [92; 98]%N ++ quote_units s'
      else if (c =? 9)%N then [92; 116]%N ++ quote_units s'
      else if (c =? 10)%N then [92; 110]%N ++ quote_units s'
      else if (c =? 12)%N then [92; 102]%N ++ quote_units s'
      else if (c =? 13)%N then [92; 114]%N ++ quote_units s'
      else if (c =? 34)%N then [92; 34]%N ++ quote_units s'
      else if (c =? 92)%N then [92; 92]%N ++ quote_units s'
      else if (c <? 32)%N then unicode_escape c ++ quote_units s'
      else if is_high_surrogate c then
        match s' with
        | d :: s'' =>
            if is_low_surrogate d then c :: d :: quote_units s''
            else unicode_escape c ++ quote_units s'
        | [] => unicode_escape c
        end
      else if is_low_surrogate c then unicode_escape c ++ quote_units s'
      else c :: quote_units s'
  end.

Definition quote (s : jsstring) : jsstring := dquote :: quote_units s ++ [dquote].

(** Number::toString of an integer below 10^21: its decimal digits. *)
Definition number_to_string (n : Z) : jsstring :=
  lit (NilZero.string_of_int (Z.to_int n)).

Fixpoint join (sep : jsstring) (parts : list jsstring) : jsstring :=
  match parts with
  | [] => []
  | [p] => p
  | p :: ps => p ++ sep ++ join sep ps
  end.

(** The common end of SerializeJSONObject and SerializeJSONArray. *)
Definition wrap (open close gap stepback indent : jsstring) (partial : list jsstring)
  : jsstring :=
  match partial with
  | [] => open ++ close
  | _ :: _ =>
      match gap with
      | [] => open ++ join (lit ",") partial ++ close
      | _ :: _ =>
          open ++ [LF] ++ indent ++ join (lit "," ++ [LF] ++ indent) partial
               ++ [LF] ++ stepback ++ close
      end
  end.

(** SerializeJSONProperty with indentation [gap], at indentation [indent]. *)
Fixpoint serialize (gap indent : jsstring) (v : Json) : jsstring :=
  match v with
  | JString s => quote s
  | JNumber n => number_to_string n
  | JArray items =>
      wrap (lit "[") (lit "]") gap indent (indent ++ gap)
        (map (serialize gap (indent ++ gap)) items)
  | JObject members =>
      wrap (lit "{") (lit "}") gap indent (indent ++ gap)
        (map (fun kv =>
                match kv with
                | (k, x) =>
                    quote k ++ lit ":"
                      ++ match gap with [] => [] | _ :: _ => lit " " end
                      ++ serialize gap (indent ++ gap) x
                end) members)
  end.

(** [JSON.stringify(v, null, space)] for a number [space]: the gap is that
    many spaces, at most ten. *)
Definition stringify (v : Json) (space : nat) : jsstring :=
  serialize (repeat 32%N (Nat.min 10 space)) [] v.

End JSON.

(* ===================================================================== *)
(** ** AgentModePage                                                      *)
(* ===================================================================== *)

Module AgentModePage.
Import JS GrainJS JSON.
Local Open Scope js_scope.

(** interface AgentThought *)
Module AgentThought.
Inductive Kind : Type := thinking | planning | executing | completed | error.

Record t : Type := mk {
  timestamp : Z;
  type : Kind;
  message : jsstring
}.
End AgentThought.

(** The [result] of an action is declared [any]; the page stores objects of
    three shapes, told apart by their [type] member. *)
Module ActionResult.
Record Row : Type := mkRow {
  customer : jsstring;
  revenue : Q;
  orders : Z
}.

Inductive t : Type :=
| value (value : jsstring)     (* { type: "value", value } *)
| data (data : list Row)       (* { type: "data", data } *)
| error (error : jsstring).    (* { type: "error", error } *)
End ActionResult.

(** interface AgentAction *)
Module AgentAction.
Inductive Kind : Type := read | write | query | formula | permission_denied.

Inductive Status : Type := success | error | pending.

Record t : Type := mk {
  id : jsstring;
  timestamp : Z;
  type : Kind;
  description : jsstring;
  status : Status;
  duration : option Z;
  result : option ActionResult.t
}.
End AgentAction.

(** interface ExecutionStep *)
Module ExecutionStep.
Inductive Status : Type := running | completed | error.

Record t : Type := mk {
  id : jsstring;
  title : jsstring;
  details : list jsstring;
  duration : Q;
  status : Status
}.
End ExecutionStep.

(** The fields of an [AgentModePage] instance. *)
Record Fields : Type := mkFields {
  _thoughts : Observable (list AgentThought.t);
  _actions : Observable (list AgentAction.t);
  _executionSteps : Observable (list ExecutionStep.t);
  _schema : Observable jsstring;
  _memoryContext : Observable (list jsstring);
  _generatedCode : Observable jsstring;
  _isPaused : Observable bool;
  _autoScroll : Observable bool;
  _selectedAction : Observable (option AgentAction.t);   (* [None]: null or undefined *)
  _livePreviewEnabled : Observable bool
}.

(** The page sets no timer. *)
Definition Callback : Type := Empty_set.

Definition World := JS.World Fields Callback.
Definition M := JS.M Fields Callback.

Definition f_thoughts : Field Fields (list AgentThought.t) :=
  mkField "_thoughts" _thoughts
    (fun o s => mkFields o (_actions s) (_executionSteps s) (_schema s)
                  (_memoryContext s) (_generatedCode s) (_isPaused s) (_autoScroll s)
                  (_selectedAction s) (_livePreviewEnabled s)).

Definition f_actions : Field Fields (list AgentAction.t) :=
  mkField "_actions" _actions
    (fun o s => mkFields (_thoughts s) o (_executionSteps s) (_schema s)
                  (_memoryContext s) (_generatedCode s) (_isPaused s) (_autoScroll s)
                  (_selectedAction s) (_livePreviewEnabled s)).

Definition f_executionSteps : Field Fields (list ExecutionStep.t) :=
  mkField "_executionSteps" _executionSteps
    (fun o s => mkFields (_thoughts s) (_actions s) o (_schema s)
                  (_memoryContext s) (_generatedCode s) (_isPaused s) (_autoScroll s)
                  (_selectedAction s) (_livePreviewEnabled s)).

Definition f_schema : Field Fields jsstring :=
  mkField "_schema" _schema
    (fun o s => mkFields (_thoughts s) (_actions s) (_executionSteps s) o
                  (_memoryContext s) (_generatedCode s) (_isPaused s) (_autoScroll s)
                  (_selectedAction s) (_livePreviewEnabled s)).

Definition f_memoryContext : Field Fields (list jsstring) :=
  mkField "_memoryContext" _memoryContext
    (fun o s => mkFields (_thoughts s) (_actions s) (_executionSteps s) (_schema s)
                  o (_generatedCode s) (_isPaused s) (_autoScroll s)
                  (_selectedAction s) (_livePreviewEnabled s)).

Definition f_generatedCode : Field Fields jsstring :=
  mkField "_generatedCode" _generatedCode
    (fun o s => mkFields (_thoughts s) (_actions s) (_executionSteps s) (_schema s)
                  (_memoryContext s) o (_isPaused s) (_autoScroll s)
                  (_selectedAction s) (_livePreviewEnabled s)).

Definition f_isPaused : Field Fields bool :=
  mkField "_isPaused" _isPaused
    (fun o s => mkFields (_thoughts s) (_actions s) (_executionSteps s) (_schema s)
                  (_memoryContext s) (_generatedCode s) o (_autoScroll s)
                  (_selectedAction s) (_livePreviewEnabled s)).

Definition f_selectedAction : Field Fields (option AgentAction.t) :=
  mkField "_selectedAction" _selectedAction
    (fun o s => mkFields (_thoughts s) (_actions s) (_executionSteps s) (_schema s)
                  (_memoryContext s) (_generatedCode s) (_isPaused s) (_autoScroll s)
                  o (_livePreviewEnabled s)).

(** The field initialisers of the class. *)
Definition fresh : Fields :=
  mkFields (Live []) (Live []) (Live []) (Live []) (Live []) (Live [])
           (Live false) (Live true) (Live None) (Live true).

(** *** [_initializeSampleData] *)

Definition sample_thoughts (t1 t2 t3 t4 : Z) : list AgentThought.t :=
  [ AgentThought.mk (t1 - 5000) AgentThought.thinking
      (lit "Analyzing document structure...");
    AgentThought.mk (t2 - 4000) AgentThought.planning
      (lit "Planning query execution strategy");
    AgentThought.mk (t3 - 2000) AgentThought.executing
      (lit "Executing SUM aggregation on Orders table");
    AgentThought.mk (t4 - 1000) AgentThought.completed
      (lit "Query completed successfully") ].

Definition sample_steps : list ExecutionStep.t :=
  [ ExecutionStep.mk (lit "1") (lit "Schema Analysis")
      [ lit "Tables: Orders, Products, Customers";
        lit "Relationships detected: 3";
        lit "Columns analyzed: 42" ]
      1.2%Q ExecutionStep.completed;
    ExecutionStep.mk (lit "2") (lit "Query Planning")
      [ lit "Target: SUM(Orders.total)";
        lit "Filters: date > 2024-01-01";
        lit "Optimization: Index scan" ]
      0.8%Q ExecutionStep.completed;
    ExecutionStep.mk (lit "3") (lit "Formula Generation")
      [ lit "Function: AGGREGATE";
        lit "Parameters validated" ]
      0.3%Q ExecutionStep.running ].

Definition sample_actions (t1 t2 t3 t4 : Z) : list AgentAction.t :=
  [ AgentAction.mk (lit "1") (t1 - 10000) AgentAction.read
      (lit "Read document schema") AgentAction.success (Some 45%Z)
      (Some (ActionResult.value (lit "3 tables, 42 columns")));
    AgentAction.mk (lit "2") (t2 - 8000) AgentAction.query
      (lit "Executed aggregation query: SUM(Orders.total)") AgentAction.success
      (Some 120%Z)
      (Some (ActionResult.value (lit "$45,678.90")));
    AgentAction.mk (lit "3") (t3 - 5000) AgentAction.query
      (lit "Fetched top 5 customers by revenue") AgentAction.success (Some 89%Z)
      (Some (ActionResult.data
         [ ActionResult.mkRow (lit "Acme Corp") 15234.50%Q 23;
           ActionResult.mkRow (lit "TechStart Inc") 12456.00%Q 18;
           ActionResult.mkRow (lit "Global Traders") 9876.30%Q 15;
           ActionResult.mkRow (lit "Smith & Co") 8654.20%Q 12;
           ActionResult.mkRow (lit "Data Systems") 7543.10%Q 10 ]));
    AgentAction.mk (lit "4") (t4 - 3000) AgentAction.permission_denied
      (lit "Attempted to delete records") AgentAction.error None
      (Some (ActionResult.error
         (lit "Permission denied: DELETE operation requires admin access"))) ].

Definition sample_schema : Json :=
  JObject
    [ (lit "tables",
       JArray
         [ JObject
             [ (lit "name", JString (lit "Orders"));
               (lit "columns",
                JArray [ JString (lit "id"); JString (lit "customer_id");
                         JString (lit "total"); JString (lit "date") ]);
               (lit "rowCount", JNumber 1523) ];
           JObject
             [ (lit "name", JString (lit "Products"));
               (lit "columns",
                JArray [ JString (lit "id"); JString (lit "name");
                         JString (lit "price"); JString (lit "category") ]);
               (lit "rowCount", JNumber 89) ] ]);
      (lit "relationships",
       JArray
         [ JObject
             [ (lit "from", JString (lit "Orders.customer_id"));
               (lit "to", JString (lit "Customers.id")) ] ]) ].

Definition sample_code : jsstring :=
  (lit "# Generated Formula" ++ [LF] ++ lit "SUM(Orders.total)" ++ [LF; LF])
  ++ (lit "# Filter Condition" ++ [LF] ++ lit "Orders.date > DATE(2024, 1, 1)"
        ++ [LF; LF])
  ++ (lit "# Execution Plan" ++ [LF] ++ lit "# 1. Scan Orders table" ++ [LF]
        ++ lit "# 2. Apply date filter" ++ [LF] ++ lit "# 3. Aggregate totals").

Definition sample_memory : list jsstring :=
  [ lit "User asked about total sales for 2024";
    lit "Identified Orders table contains sales data";
    lit "Date column format: YYYY-MM-DD";
    lit "Total column is numeric (currency)" ].

Definition _initializeSampleData : M unit :=
  t1 <- Date_now ;; t2 <- Date_now ;; t3 <- Date_now ;; t4 <- Date_now ;;
  set_fresh f_thoughts (sample_thoughts t1 t2 t3 t4) ;;
  set_fresh f_executionSteps sample_steps ;;
  u1 <- Date_now ;; u2 <- Date_now ;; u3 <- Date_now ;; u4 <- Date_now ;;
  set_fresh f_actions (sample_actions u1 u2 u3 u4) ;;
  a <- get f_actions ;;
  l <- must "2" a ;;
  set f_selectedAction (fun _ _ => false) (nth_error l 2) ;;
  set f_schema jsstring_eqb (stringify sample_schema 2) ;;
  set f_generatedCode jsstring_eqb sample_code ;;
  set_fresh f_memoryContext sample_memory.

(** *** The other methods *)

Definition _sendAgentCommand (command : jsstring) : M unit :=
  if negb (truthy (trim command)) then ret tt
  else
    a <- get f_thoughts ;;
    _ <- must "push" a ;;
    t <- Date_now ;;
    get_push f_thoughts
      (AgentThought.mk t AgentThought.thinking
         (lit "Processing: " ++ [dquote] ++ command ++ [dquote])) ;;
    set_copy f_thoughts ;;
    console_log [lit "Agent command:"; command].

Definition _togglePause : M unit :=
  p <- get f_isPaused ;;
  set f_isPaused Bool.eqb (negb (truthy_bool p)).

Definition _clearAgent : M unit :=
  set_fresh f_thoughts [] ;;
  set_fresh f_actions [] ;;
  set_fresh f_executionSteps [] ;;
  set_fresh f_memoryContext [].

Definition _showSettings : M unit :=
  console_log [lit "Show agent settings"].

Definition _exitAgentMode : M unit :=
  emit (Dom "_gristDoc.openDocPage").

Definition _togglePermission (name : jsstring) : M unit :=
  console_log [lit "Toggle permission:"; name].

(** The body of the constructor: the [cancel] command is bound to
    [_clearAgent], then the sample data is loaded. *)
Definition constructor : M unit :=
  emit (Dom "commands.createGroup") ;;
  _initializeSampleData.

(** [new AgentModePage(gristDoc)] in a runtime that starts at time [t0] with
    the wall clock [clk]. *)
Definition create (t0 : N) (clk : nat -> Z) : Outcome Fields Callback unit :=
  constructor (mkWorld fresh t0 [] clk 0 []).

(** *** What can happen to a page *)

Inductive Op : Type :=
| OpCommand (text : jsstring)    (* Enter in the textarea, or the send button *)
| OpTogglePause                  (* the pause button *)
| OpClear                        (* the clear button, or the cancel command *)
| OpSettings
| OpExit
| OpTogglePermission (name : jsstring).

Definition handler (op : Op) : M unit :=
  match op with
  | OpCommand text => _sendAgentCommand text ;; emit (Dom "textarea.value")
  | OpTogglePause => _togglePause
  | OpClear => _clearAgent
  | OpSettings => _showSettings
  | OpExit => _exitAgentMode
  | OpTogglePermission name => _togglePermission name
  end.

Definition step (op : Op) (w : World) : World := task (handler op) w.

(** The states in which subscribers were run: the snapshots of the
    notifications in a trace. *)
Definition observed (tr : list (Effect Fields Callback)) : list Fields :=
  flat_map (fun e => match e with Notify _ s => [s] | _ => [] end) tr.

End AgentModePage.

(* ===================================================================== *)
(** ** Vocabulary of the statements                                       *)
(* ===================================================================== *)

Module ChatPanelSpec.
Import JS GrainJS ChatPanel.

Definition is_reply (t : N * Callback) : bool :=
  match snd t with CbResponse => true | CbScroll => false end.

(** The number of placeholder replies still to come. *)
(** The number of placeholder replies still to come. *)
Definition replies_pending (w : World) : nat :=
  List.length (filter is_reply (timers w)).

(** The world an accepted send ends in. *)
Definition sent (w : World) (l : list ChatMessage) (text : jsstring) : World :=
  let ref := _messagesEndRef (self w) in
  let gone := isDisposed (self w) in
  let m := user_message (trim text) in
  mkWorld
    (mkFields (Live (l ++ [m])) (Live []) (Live true) ref gone)
    (now w)
    (timers w ++ [((now w + 100)%N, CbScroll); ((now w + 1500)%N, CbResponse)])
    (wallclock w) (reads w)
    (trace w ++
       [ Notify "_messages" (mkFields (Live (l ++ [m])) (Live text) (Live false) ref gone);
         Notify "_inputText" (mkFields (Live (l ++ [m])) (Live []) (Live false) ref gone);
         Dom "document.querySelector";
         Notify "_thinking" (mkFields (Live (l ++ [m])) (Live []) (Live true) ref gone);
         SetTimeout CbScroll 100;
         SetTimeout CbResponse 1500 ]).

(** The world the reply closure ends in when the panel is alive. *)
Definition replied (w : World) (l : list ChatMessage) (text : Observable jsstring)
  (busy : bool) : World :=
  let ref := _messagesEndRef (self w) in
  let gone := isDisposed (self w) in
  mkWorld
    (mkFields (Live (l ++ [placeholder])) text (Live false) ref gone)
    (now w)
    (timers w ++ [((now w + 100)%N, CbScroll)])
    (wallclock w) (reads w)
    (trace w ++
       [ Notify "_messages" (mkFields (Live (l ++ [placeholder])) text (Live busy) ref gone) ]
       ++ (if busy
           then [ Notify "_thinking"
                    (mkFields (Live (l ++ [placeholder])) text (Live false) ref gone) ]
           else [])
       ++ [ SetTimeout CbScroll 100 ]).

(** What holds of every state a panel can be in: either the panel is alive,
    its log starts with the welcome message, and a reply is pending exactly
    when the busy flag is set; or the panel is disposed: the log and the busy
    flag read [undefined], and the input buffer is not alive (it reads
    [undefined], or what was typed since). *)
Definition consistent (w : World) : Prop :=
  match _messages (self w), _inputText (self w), _thinking (self w) with
  | Live l, Live _, Live busy =>
      (exists tl, l = welcome :: tl) /\
      replies_pending w = (if busy then 1 else 0)%nat
  | Disposed, Disposed, Disposed => True
  | Disposed, Overwritten _, Disposed => True
  | _, _, _ => False
  end.

(** No placeholder reply is due by time [t]. *)
Definition no_reply_by (t : N) (w : World) : Prop :=
  forall d, In (d, CbResponse) (timers w) -> (t < d)%N.

(** A log only grew between two states: entries were added at its end, none
    removed or changed; a disposed log stays disposed. *)
Definition grows {A} (o o' : Observable (list A)) : Prop :=
  match o, o' with
  | Live l, Live l' => exists more, l' = l ++ more
  | Disposed, Disposed => True
  | Overwritten l, Overwritten l' => exists more, l' = l ++ more
  | _, _ => False
  end.

(** A panel made at time 0, and the same after the user typed "hi". *)
Definition clock0 : nat -> Z := fun _ => 1700000000000%Z.

Definition panel0 : World := world_of (create 0 clock0).

Definition panel_hi : World := step (OpInput (lit "hi")) panel0.

End ChatPanelSpec.


Module AgentSpec.
Import JS GrainJS AgentModePage.

(** What subscribers were shown while [m] ran from [w]: the snapshots of the
    notifications that the run added to the trace. *)
Definition notified_by (m : M unit) (w : World) : list Fields :=
  observed (skipn (List.length (trace w)) (trace (world_of (m w)))).

(** The three logs of a page, when they are alive. *)
Definition logs (s : Fields)
  : option (list AgentThought.t * list AgentAction.t * list ExecutionStep.t) :=
  match _thoughts s, _actions s, _executionSteps s with
  | Live th, Live ac, Live st => Some (th, ac, st)
  | _, _, _ => None
  end.

(** "Atomic with respect to observation": every state shown to a subscriber
    during the clear has the three logs as they were before, or all three
    empty. *)
Definition clear_is_atomic (w : World) : Prop :=
  forall s, In s (notified_by _clearAgent w) ->
            logs s = logs (self w) \/ logs s = Some ([], [], []).

(** A thought and an action without their timestamps. *)
Definition thought_body (x : AgentThought.t) : AgentThought.Kind * jsstring :=
  (AgentThought.type x, AgentThought.message x).

Definition action_body (x : AgentAction.t)
  : jsstring * AgentAction.Kind * jsstring * AgentAction.Status * option Z
    * option ActionResult.t :=
  (AgentAction.id x, AgentAction.type x, AgentAction.description x,
   AgentAction.status x, AgentAction.duration x, AgentAction.result x).

(** The thought a command leaves, read at wall-clock time [t]. *)
Definition processing (t : Z) (command : jsstring) : AgentThought.t :=
  AgentThought.mk t AgentThought.thinking
    (lit "Processing: " ++ [dquote] ++ command ++ [dquote]).

(** The fields of a page right after its constructor, whose eight readings
    of the wall clock are [clk 0] to [clk 7]. *)
Definition seeded (clk : nat -> Z) : Fields :=
  mkFields
    (Live (sample_thoughts (clk 0%nat) (clk 1%nat) (clk 2%nat) (clk 3%nat)))
    (Live (sample_actions (clk 4%nat) (clk 5%nat) (clk 6%nat) (clk 7%nat)))
    (Live sample_steps)
    (Live (JSON.stringify sample_schema 2))
    (Live sample_memory)
    (Live sample_code)
    (Live false) (Live true)
    (Live (nth_error (sample_actions (clk 4%nat) (clk 5%nat) (clk 6%nat) (clk 7%nat)) 2))
    (Live true).

(** A page made at time 0 with a wall clock that stands still. *)
Definition clock_at (t : Z) : nat -> Z := fun _ => t.

Definition page_at (t : Z) : World := world_of (create 0 (clock_at t)).

Definition page0 : World := page_at 1700000000000.

End AgentSpec.

(* ===================================================================== *)
(** ** What the views compute from the state                              *)
(* ===================================================================== *)

Module ChatPanelView.
Import JS GrainJS ChatPanel.
Local Open Scope js_scope.

(** The class [disabled] of the send button in [_buildInputArea]:
    [use => !use(this._inputText).trim() || use(this._thinking)]. *)
Definition send_disabled : M bool :=
  text <- get f_inputText ;;
  text <- must "trim" text ;;
  busy <- get f_thinking ;;
  ret (negb (truthy (trim text)) || truthy_bool busy).

(** [_buildMessage]: the block with the suggested formula and its Apply and
    Preview buttons is built for a message that is not the user's and whose
    [formula] is truthy. *)
Definition shows_formula (msg : ChatMessage) : bool :=
  match sender msg with
  | user => false
  | ai => match formula msg with Some f => truthy f | None => false end
  end.

(** [_buildMessage]: the error line is built for a message that is not the
    user's and has an [error]. *)
Definition shows_error (msg : ChatMessage) : bool :=
  match sender msg with
  | user => false
  | ai => match error msg with Some _ => true | None => false end
  end.

End ChatPanelView.

Module ChatPanelShape.
Import JS GrainJS ChatPanel.

(** A text as [_sendMessage] stores it: not empty, and with no white space
    left to trim at either end. *)
Definition trimmed (t : jsstring) : Prop := t <> [] /\ trim t = t.

(** The entries of completed exchanges: each user message with the
    placeholder reply after it. *)
Definition exchanges (texts : list jsstring) : list ChatMessage :=
  flat_map (fun t => [user_message t; placeholder]) texts.

(** The log of a panel that is alive: the welcome message, then completed
    exchanges, then, exactly when the busy flag is set, one user message
    that awaits its reply. *)
Definition shaped (w : World) : Prop :=
  match _messages (self w), _thinking (self w) with
  | Live l, Live busy =>
      exists texts,
        Forall trimmed texts /\
        if busy
        then exists last, trimmed last /\
               l = welcome :: exchanges texts ++ [user_message last]
        else l = welcome :: exchanges texts
  | Live _, _ => False
  | _, _ => True
  end.

(** The three observables of the panel are alive. *)
Definition alive (w : World) : Prop :=
  exists l text busy,
    _messages (self w) = Live l /\ _inputText (self w) = Live text /\
    _thinking (self w) = Live busy.

(** The world with more effects in its trace, and nothing else changed. *)
Definition traced (w : World) (more : list (Effect Fields Callback)) : World :=
  mkWorld (self w) (now w) (timers w) (wallclock w) (reads w) (trace w ++ more).

End ChatPanelShape.

Module AgentRun.
Import JS GrainJS AgentModePage AgentSpec.

Definition steps (ops : list Op) (w : World) : World :=
  fold_left (fun w op => step op w) ops w.

(** The states a page can be in: made by the constructor, then any sequence
    of events. *)
Inductive reachable : World -> Prop :=
| reach_create t0 clk w : create t0 clk = Ok tt w -> reachable w
| reach_step op w : reachable w -> reachable (step op w).

(** The thoughts a batch of commands leaves: one for each command that does
    not trim to nothing, stamped with the successive readings of the wall
    clock from the [k]-th on. *)
Fixpoint stamped (clk : nat -> Z) (k : nat) (commands : list jsstring)
  : list AgentThought.t :=
  match commands with
  | [] => []
  | c :: cs =>
      if truthy (trim c) then processing (clk k) c :: stamped clk (Datatypes.S k) cs
      else stamped clk k cs
  end.

(** How many clicks on the pause button a sequence of events holds. *)
Fixpoint pause_clicks (ops : list Op) : nat :=
  match ops with
  | [] => 0
  | OpTogglePause :: ops' => Datatypes.S (pause_clicks ops')
  | _ :: ops' => pause_clicks ops'
  end.

(** The wall clock never runs backwards. *)
Definition monotone (clk : nat -> Z) : Prop :=
  forall i j, (i <= j)%nat -> (clk i <= clk j)%Z.

(** In the order of the log, timestamps never decrease. *)
Definition chronological (stamps : list Z) : Prop := StronglySorted Z.le stamps.

End AgentRun.

(* ===================================================================== *)
(** * Properties                                                          *)
(* ===================================================================== *)

(** ** Strings and timers *)

Module JSFacts.
Import JS.

Lemma trimStart_whitespace (s : jsstring) :
  forallb isWhiteSpace s = true -> trimStart s = [].
Proof.
  induction s as [|c s IH]; simpl; [reflexivity|].
  intros H. apply andb_true_iff in H as [Hc Hs]. rewrite Hc. auto.
Qed.

(** A string of white space only trims to the empty string. *)
Lemma trim_whitespace (s : jsstring) :
  forallb isWhiteSpace s = true -> trim s = [].
Proof.
  intros H. unfold trim. rewrite (trimStart_whitespace s H). reflexivity.
Qed.

Lemma trimStart_nil_inv (s : jsstring) :
  trimStart s = [] -> forallb isWhiteSpace s = true.
Proof.
  induction s as [|c s IH]; simpl; [reflexivity|].
  destruct (isWhiteSpace c); simpl; [exact IH | discriminate].
Qed.

(** And only such a string does. *)
Lemma trim_nil_inv (s : jsstring) :
  trim s = [] -> forallb isWhiteSpace s = true.
Proof.
  unfold trim, trimEnd. intros H.
  assert (E : trimStart (rev (trimStart s)) = []).
  { rewrite <- (rev_involutive (trimStart (rev (trimStart s)))), H. reflexivity. }
  apply trimStart_nil_inv in E.
  rewrite forallb_forall in E.
  destruct (trimStart s) as [|c s'] eqn:Es.
  - now apply trimStart_nil_inv.
  - assert (Hc : isWhiteSpace c = true) by (apply E, in_rev; rewrite rev_involutive; now left).
    clear E H. exfalso. revert Es Hc. clear.
    induction s as [|d s IH]; simpl; [discriminate|].
    destruct (isWhiteSpace d) eqn:Ed; [exact IH|].
    intros [= -> _]. congruence.
Qed.

(** [trim] and the event queue on small inputs. *)
Example trim_hi : trim (lit "  hi there" ++ [0x9; 0xA0; 0xA]%N) = lit "hi there".
Proof. reflexivity. Qed.

Example trim_blank : trim [0x20; 0x3000; 0xFEFF; 0xD]%N = [].
Proof. reflexivity. Qed.

Example pick_by_due_time :
  pick [(1500, true); (100, false); (100, true)]%N
  = Some ((100, false), [(1500, true); (100, true)])%N.
Proof. reflexivity. Qed.

Example stringify_nested :
  JSON.stringify
    (JSON.JObject [(lit "n", JSON.JArray [JSON.JNumber 1523; JSON.JArray []])]) 2
  = lit "{" ++ [LF] ++ lit "  " ++ [dquote] ++ lit "n" ++ [dquote] ++ lit ": ["
      ++ [LF] ++ lit "    1523," ++ [LF] ++ lit "    []" ++ [LF] ++ lit "  ]"
      ++ [LF] ++ lit "}".
Proof. reflexivity. Qed.

Section Pick.
Context {C : Type}.
Implicit Types (ts rest : list (N * C)) (t : N * C).

Lemma pick_nil ts : pick ts = None -> ts = [].
Proof.
  destruct ts as [|t ts]; [reflexivity|]. simpl.
  destruct (pick ts) as [[u rest]|]; [|discriminate].
  destruct (fst t <=? fst u)%N; discriminate.
Qed.

(** [pick] takes one timeout out of the queue and keeps the order of the
    others. *)
Lemma pick_split ts t rest :
  pick ts = Some (t, rest) ->
  exists l1 l2, ts = l1 ++ t :: l2 /\ rest = l1 ++ l2.
Proof.
  revert t rest. induction ts as [|a ts IH]; simpl; [discriminate|].
  intros t rest. destruct (pick ts) as [[u r]|] eqn:E.
  - destruct (fst a <=? fst u)%N.
    + intros [= <- <-]. now exists [], ts.
    + intros [= <- <-]. destruct (IH _ _ eq_refl) as (l1 & l2 & -> & ->).
      now exists (a :: l1), l2.
  - intros [= <- <-]. apply pick_nil in E. subst. now exists [], [].
Qed.

(** The timeout taken is due no later than any other. *)
Lemma pick_earliest ts t rest :
  pick ts = Some (t, rest) -> forall u, In u ts -> (fst t <= fst u)%N.
Proof.
  revert t rest. induction ts as [|a ts IH]; simpl; [discriminate|].
  intros t rest. destruct (pick ts) as [[v r]|] eqn:E.
  - specialize (IH _ _ eq_refl).
    destruct (N.leb_spec (fst a) (fst v)).
    + intros [= <- <-] u [<-|Hu]; [lia|]. specialize (IH u Hu). lia.
    + intros [= <- <-] u [<-|Hu]; [lia|]. now apply IH.
  - apply pick_nil in E. subst. intros [= <- <-] u [<-|[]]. lia.
Qed.

Lemma pick_length ts t rest :
  pick ts = Some (t, rest) -> length ts = Datatypes.S (length rest).
Proof.
  intros H. destruct (pick_split _ _ _ H) as (l1 & l2 & -> & ->).
  rewrite !length_app. simpl. lia.
Qed.

Lemma pick_filter (p : N * C -> bool) ts t rest :
  pick ts = Some (t, rest) ->
  length (filter p ts) = ((if p t then 1 else 0) + length (filter p rest))%nat.
Proof.
  intros H. destruct (pick_split _ _ _ H) as (l1 & l2 & -> & ->).
  rewrite !filter_app, !length_app. simpl. destruct (p t); simpl; lia.
Qed.

Lemma pick_In ts t rest : pick ts = Some (t, rest) -> In t ts.
Proof.
  intros H. destruct (pick_split _ _ _ H) as (l1 & l2 & -> & ->).
  apply in_or_app. right. now left.
Qed.

Lemma pick_rest_In ts t rest u : pick ts = Some (t, rest) -> In u rest -> In u ts.
Proof.
  intros H. destruct (pick_split _ _ _ H) as (l1 & l2 & -> & ->).
  rewrite !in_app_iff. simpl. tauto.
Qed.
End Pick.

End JSFacts.

(** ** ChatPanel *)

Module ChatPanelFacts.
Import JS GrainJS ChatPanel ChatPanelSpec JSFacts.

(** A whole exchange: type, send, let the scroll and the reply run. *)
Example exchange_hi :
  _messages (self (steps [OpInput (lit "hi"); OpSend; OpTimer; OpTimer] panel0))
  = Live [welcome; user_message (lit "hi"); placeholder].
Proof. reflexivity. Qed.

Lemma sendMessage_accepts (w : World) l text :
  _messages (self w) = Live l ->
  _inputText (self w) = Live text ->
  _thinking (self w) = Live false ->
  trim text <> [] ->
  _sendMessage w = Ok tt (sent w l text).
Proof.
  destruct w as [[m i b r g] n ts clk k tr]. simpl. intros -> -> -> Ht.
  assert (Hs : jsstring_eqb text [] = false).
  { unfold jsstring_eqb. destruct (list_eq_dec N.eq_dec text []) as [->|]; [|reflexivity].
    exfalso. apply Ht. reflexivity. }
  unfold _sendMessage, sent, bind, get, must, ret. simpl.
  destruct (trim text) as [|c s] eqn:E; [congruence|]. simpl.
  unfold get_push, set_copy, set, bind, get, must, ret, emit, _scrollToBottom,
    setTimeout, with_self, with_trace. simpl.
  rewrite Hs. simpl.
  repeat rewrite <- app_assoc. reflexivity.
Qed.

(** A send while a reply is awaited ends at once, in the same world. *)
Lemma sendMessage_busy (w : World) :
  _thinking (self w) = Live true -> world_of (_sendMessage w) = w.
Proof.
  destruct w as [[m i b r g] n ts clk k tr]. simpl. intros ->.
  unfold _sendMessage, bind, get, must, ret, throw. simpl.
  destruct i as [text| |text]; simpl; try reflexivity;
    rewrite orb_true_r; reflexivity.
Qed.

(** A send of white space only ends at once, in the same world. *)
Lemma sendMessage_blank (w : World) text :
  _inputText (self w) = Live text ->
  trim text = [] ->
  _sendMessage w = Ok tt w.
Proof.
  destruct w as [[m i b r g] n ts clk k tr]. simpl. intros -> Ht.
  unfold _sendMessage, bind, get, must, ret. simpl. rewrite Ht. reflexivity.
Qed.

Lemma response_callback_live (w : World) l busy :
  _messages (self w) = Live l ->
  _thinking (self w) = Live busy ->
  response_callback w = Ok tt (replied w l (_inputText (self w)) busy).
Proof.
  destruct w as [[m i b r g] n ts clk k tr]. simpl. intros -> ->.
  unfold response_callback, replied, get_push, set_copy, set, bind, get, must, ret,
    _scrollToBottom, setTimeout, with_self, with_trace. simpl.
  destruct busy; simpl; repeat rewrite <- app_assoc; reflexivity.
Qed.

(** On a disposed panel the reply closure raises at its first statement and
    changes nothing. *)
Lemma response_callback_disposed (w : World) :
  _messages (self w) = Disposed ->
  response_callback w = Throw (TypeError "push") w.
Proof.
  destruct w as [[m i b r g] n ts clk k tr]. simpl. intros ->. reflexivity.
Qed.

(** The scroll closure touches the document only. *)
Lemma scroll_callback_frame (w : World) :
  exists tr, scroll_callback w =
    Ok tt (mkWorld (self w) (now w) (timers w) (wallclock w) (reads w) (trace w ++ tr)).
Proof.
  destruct w as [[m i b r g] n ts clk k tr]. unfold scroll_callback. simpl.
  destruct r.
  - exists [Dom "scrollIntoView"]. reflexivity.
  - exists []. rewrite app_nil_r. reflexivity.
Qed.

(** *** Every event, one by one *)

Ltac open_world w :=
  let m := fresh "m" in let i := fresh "i" in let b := fresh "b" in
  let r := fresh "r" in let g := fresh "g" in
  let n := fresh "n" in let ts := fresh "ts" in
  let clk := fresh "clk" in let k := fresh "k" in let tr := fresh "tr" in
  destruct w as [[m i b r g] n ts clk k tr].

Ltac run_js :=
  unfold on_send, on_input, _sendMessage, _applyFormula, _previewFormula, _showChatMenu,
    response_callback, scroll_callback, _scrollToBottom, console_log,
    get_push, set_copy, set_fresh, set, get, must, emit, setTimeout, bind, ret, throw,
    task, with_self, with_trace;
  simpl.

(** A send on a panel that is alive. *)
Lemma step_send_live (w : World) l text busy :
  _messages (self w) = Live l ->
  _inputText (self w) = Live text ->
  _thinking (self w) = Live busy ->
  step OpSend w = if negb (truthy (trim text)) || busy then w else sent w l text.
Proof.
  intros Em Ei Eb. unfold step, task, on_send.
  destruct (trim text) as [|c t'] eqn:Et.
  - simpl. now rewrite (sendMessage_blank w text Ei Et).
  - destruct busy; simpl.
    + pose proof (sendMessage_busy w Eb) as H.
      destruct (_sendMessage w) eqn:E; simpl in H; subst; [reflexivity|].
      exfalso. open_world w. simpl in *. subst. revert E. run_js. rewrite Et. discriminate.
    + rewrite (sendMessage_accepts w l text Em Ei Eb); [reflexivity|]. congruence.
Qed.

(** Once the log and the busy flag are disposed, every event leaves them
    disposed, whatever the input buffer holds; and an input buffer that is
    not alive does not come alive again. *)
Lemma step_disposed (op : Op) (w : World) :
  _messages (self w) = Disposed ->
  _thinking (self w) = Disposed ->
  _messages (self (step op w)) = Disposed /\
  _thinking (self (step op w)) = Disposed /\
  ((forall t, _inputText (self w) <> Live t) ->
   forall t, _inputText (self (step op w)) <> Live t).
Proof.
  open_world w. simpl. intros -> ->.
  assert (Hdead : forall (o : Observable jsstring) (old : jsstring),
             (forall t, Live old <> Live t) -> forall t, o <> Live t).
  { intros o old H t. exfalso. apply (H old). reflexivity. }
  destruct op; simpl.
  - (* input *)
    run_js. destruct i as [old| |old]; simpl.
    + destruct (jsstring_eqb old value); simpl; repeat split; auto; apply Hdead.
    + repeat split; auto. discriminate.
    + destruct (jsstring_eqb old value); simpl; repeat split; auto; discriminate.
  - (* send *)
    run_js. destruct i as [text| |text]; simpl; auto;
      destruct (trim text); simpl; auto.
  - auto.
  - run_js. auto.
  - run_js. auto.
  - run_js. auto.
  - (* timeout *)
    unfold fire_next. simpl.
    destruct (pick ts) as [[[due [|]] rest]|]; run_js; auto.
    destruct r; simpl; auto.
  - (* disposal *)
    unfold dispose. simpl. destruct g; simpl; repeat split; auto; discriminate.
Qed.

(** An event other than a send, a timeout and the disposal leaves the log,
    the busy flag and the timers alone. *)
Lemma step_other (op : Op) (w : World) :
  op <> OpSend -> op <> OpTimer -> op <> OpDispose ->
  _messages (self (step op w)) = _messages (self w) /\
  _thinking (self (step op w)) = _thinking (self w) /\
  timers (step op w) = timers w /\
  ((exists text, _inputText (self w) = Live text) ->
   exists text, _inputText (self (step op w)) = Live text) /\
  ((forall t, _inputText (self w) <> Live t) ->
   forall t, _inputText (self (step op w)) <> Live t).
Proof.
  intros H1 H2 H3. open_world w.
  destruct op; try congruence; simpl; try (run_js; auto; fail).
  run_js. destruct i as [old| |old]; simpl.
  - destruct (jsstring_eqb old value); simpl; repeat split; eauto;
      intros H t; exfalso; apply (H old); reflexivity.
  - repeat split; auto; try discriminate. intros [t H]. discriminate.
  - destruct (jsstring_eqb old value); simpl; repeat split; auto; try discriminate;
      intros [t H]; discriminate.
Qed.

(** The next timeout on a panel that is alive. *)
Lemma step_timer_live (w : World) l busy :
  _messages (self w) = Live l ->
  _thinking (self w) = Live busy ->
  match pick (timers w) with
  | None => step OpTimer w = w
  | Some ((due, CbScroll), rest) =>
      exists tr,
        step OpTimer w =
        mkWorld (self w) (N.max (now w) due) rest (wallclock w) (reads w) (trace w ++ tr)
  | Some ((due, CbResponse), rest) =>
      step OpTimer w =
      replied (mkWorld (self w) (N.max (now w) due) rest (wallclock w) (reads w) (trace w))
        l (_inputText (self w)) busy
  end.
Proof.
  intros Em Eb. simpl. unfold fire_next.
  destruct (pick (timers w)) as [[[due [|]] rest]|]; [| |reflexivity].
  - unfold task. simpl run_callback.
    rewrite (response_callback_live _ l busy); auto.
  - unfold task. simpl run_callback.
    match goal with |- context [scroll_callback ?x] =>
      destruct (scroll_callback_frame x) as [tr ->] end.
    now exists tr.
Qed.

(** *** The states a panel can be in *)

Lemma panel_create_world (t0 : N) (clk : nat -> Z) :
  create t0 clk =
  Ok tt (mkWorld (mkFields (Live [welcome]) (Live []) (Live false) None false) t0 [] clk 0
           [Notify "_messages"
              (mkFields (Live [welcome]) (Live []) (Live false) None false)]).
Proof. reflexivity. Qed.

Lemma filter_reply_app (ts us : list (N * Callback)) :
  List.length (filter is_reply (ts ++ us)) =
  (List.length (filter is_reply ts) + List.length (filter is_reply us))%nat.
Proof. now rewrite filter_app, length_app. Qed.

Lemma consistent_step (op : Op) (w : World) : consistent w -> consistent (step op w).
Proof.
  intros Hc.
  destruct (_messages (self w)) as [l| |l] eqn:Em;
  destruct (_inputText (self w)) as [text| |text] eqn:Ei;
  destruct (_thinking (self w)) as [busy| |busy] eqn:Eb;
  unfold consistent in Hc; rewrite ?Em, ?Ei, ?Eb in Hc; try contradiction.
  2,3:
    destruct (step_disposed op w Em Eb) as (H1 & H2 & H3);
    unfold consistent; rewrite H1, H2;
    (destruct (_inputText (self (step op w))) as [t| |t] eqn:Ei';
       [exfalso; apply (H3 ltac:(rewrite Ei; discriminate) t); reflexivity
       |exact I|exact I]).
  destruct Hc as [[tl ->] Hn].
  assert (Hother : op <> OpSend -> op <> OpTimer -> op <> OpDispose ->
                   consistent (step op w)).
  { intros N1 N2 N3.
    destruct (step_other op w N1 N2 N3) as (H1 & H2 & H3 & H4 & _).
    destruct H4 as [text' H4]; [eauto|].
    unfold consistent, replies_pending. rewrite H1, H2, H3, H4, Em, Eb. eauto. }
  destruct op; try (apply Hother; discriminate); clear Hother.
  - (* send *)
    rewrite (step_send_live w _ text busy Em Ei Eb).
    destruct (negb (truthy (trim text)) || busy) eqn:E.
    + unfold consistent. rewrite Em, Ei, Eb. eauto.
    + apply orb_false_iff in E as [_ ->].
      unfold consistent, sent, replies_pending. simpl. split; [eauto|].
      rewrite filter_reply_app. unfold replies_pending in Hn. rewrite Hn. reflexivity.
  - (* timeout *)
    pose proof (step_timer_live w _ busy Em Eb) as H.
    destruct (pick (timers w)) as [[[due [|]] rest]|] eqn:Ep.
    + rewrite H. pose proof (pick_filter is_reply _ _ _ Ep) as Hf. simpl in Hf.
      unfold replies_pending in Hn. rewrite Hn in Hf.
      unfold consistent, replied, replies_pending. simpl. rewrite Ei. split.
      * exists (tl ++ [placeholder]). reflexivity.
      * rewrite filter_reply_app. simpl. destruct busy; lia.
    + destruct H as [tr' ->].
      pose proof (pick_filter is_reply _ _ _ Ep) as Hf. simpl in Hf.
      unfold consistent, replies_pending. simpl. rewrite Em, Ei, Eb.
      unfold replies_pending in Hn. split; [eauto|lia].
    + rewrite H. unfold consistent. rewrite Em, Ei, Eb. eauto.
  - (* disposal *)
    open_world w. simpl in Em, Ei, Eb. subst.
    unfold consistent, replies_pending, dispose in *. simpl in *.
    destruct g; simpl; eauto.
Qed.

Lemma reachable_consistent (w : World) : reachable w -> consistent w.
Proof.
  induction 1 as [t0 clk w H|op w _ IH].
  - rewrite panel_create_world in H. injection H as <-.
    unfold consistent, replies_pending. simpl. eauto.
  - now apply consistent_step.
Qed.

Lemma no_reply_pending (w : World) :
  replies_pending w = 0%nat -> forall d, ~ In (d, CbResponse) (timers w).
Proof.
  unfold replies_pending. intros H d Hin.
  assert (Hf : In (d, CbResponse) (filter is_reply (timers w)))
    by (apply filter_In; split; [exact Hin|reflexivity]).
  destruct (filter is_reply (timers w)); [destruct Hf|discriminate].
Qed.

(** *** Letting time pass *)

(** While no placeholder reply is due, letting time pass changes no field:
    only scrolls run. *)
Lemma run_until_quiet (t : N) (fuel : nat) :
  forall w : World,
    no_reply_by t w ->
    (List.length (timers w) <= fuel)%nat ->
    exists w',
      run_until run_callback t fuel w = Some w' /\
      self w' = self w /\
      (forall u, In u (timers w') -> In u (timers w)).
Proof.
  induction fuel as [|fuel IH]; intros w Hq Hlen.
  - destruct (timers w) eqn:E; [|simpl in Hlen; lia].
    exists (idle t w). simpl. rewrite E. simpl. auto.
  - simpl. destruct (pick (timers w)) as [[[due cb] rest]|] eqn:Ep.
    2:{ exists (idle t w). simpl. auto. }
    destruct (N.leb_spec due t) as [Hdue|Hdue].
    2:{ exists (idle t w). simpl. auto. }
    destruct cb.
    { exfalso. specialize (Hq due (pick_In _ _ _ Ep)). lia. }
    unfold fire_next. rewrite Ep. unfold task. simpl run_callback.
    match goal with |- context [scroll_callback ?x] =>
      destruct (scroll_callback_frame x) as [tr' ->] end.
    simpl.
    match goal with |- context [run_until _ _ _ ?x] =>
      destruct (IH x) as (w' & Hr & Hs & Ht) end.
    + intros d Hd. apply Hq. simpl in Hd. eapply pick_rest_In; eauto.
    + simpl. apply pick_length in Ep. lia.
    + exists w'. simpl in *. repeat split; auto.
      intros u Hu. eapply pick_rest_In; eauto.
Qed.

(** Once the placeholder reply is due, letting time pass runs it, once. *)
Lemma run_until_reply (t : N) (fuel : nat) :
  forall (w : World) l d,
    _messages (self w) = Live l ->
    _thinking (self w) = Live true ->
    replies_pending w = 1%nat ->
    In (d, CbResponse) (timers w) ->
    (d <= t)%N ->
    (List.length (timers w) < fuel)%nat ->
    exists w',
      run_until run_callback t fuel w = Some w' /\
      self w' =
        mkFields (Live (l ++ [placeholder])) (_inputText (self w)) (Live false)
          (_messagesEndRef (self w)) (isDisposed (self w)) /\
      replies_pending w' = 0%nat.
Proof.
  induction fuel as [|fuel IH]; intros w l d Em Eb Hn Hin Hd Hlen; [lia|].
  simpl. destruct (pick (timers w)) as [[[due cb] rest]|] eqn:Ep.
  2:{ apply pick_nil in Ep. rewrite Ep in Hin. destruct Hin. }
  pose proof (pick_earliest _ _ _ Ep _ Hin) as Hmin. simpl in Hmin.
  destruct (N.leb_spec due t) as [_|Hlt]; [|lia].
  pose proof (pick_filter is_reply _ _ _ Ep) as Hf.
  pose proof (pick_length _ _ _ Ep) as Hl.
  unfold replies_pending in Hn. rewrite Hn in Hf.
  pose proof (step_timer_live w l true Em Eb) as Hstep. rewrite Ep in Hstep.
  simpl step in Hstep.
  destruct cb; simpl in Hf.
  - (* the reply itself *)
    rewrite Hstep.
    match goal with |- context [run_until _ _ _ ?x] =>
      destruct (run_until_quiet t fuel x) as (w' & Hr & Hs & Ht) end.
    + intros d' Hd'. exfalso. simpl in Hd'.
      apply in_app_or in Hd' as [Hd'|[Hd'|[]]]; [|discriminate].
      assert (Hf' : In (d', CbResponse) (filter is_reply rest))
        by (apply filter_In; split; [exact Hd'|reflexivity]).
      destruct (filter is_reply rest); [destruct Hf'|simpl in Hf; lia].
    + simpl. rewrite length_app. simpl. lia.
    + exists w'. split; [exact Hr|]. split; [rewrite Hs; reflexivity|].
      unfold replies_pending.
      destruct (filter is_reply (timers w')) as [|u us] eqn:Eu; [reflexivity|].
      exfalso.
      assert (Hu : In u (filter is_reply (timers w'))) by (rewrite Eu; now left).
      apply filter_In in Hu as [Hu1 Hu2]. apply Ht in Hu1. simpl in Hu1.
      apply in_app_or in Hu1 as [Hu1|[<-|[]]]; [|discriminate].
      assert (Hf' : In u (filter is_reply rest)) by (apply filter_In; auto).
      destruct (filter is_reply rest); [destruct Hf'|simpl in Hf; lia].
  - (* a scroll that was due before *)
    destruct Hstep as [tr' Hstep]. rewrite Hstep.
    assert (Hin' : In (d, CbResponse) rest).
    { destruct (pick_split _ _ _ Ep) as (l1 & l2 & E1 & E2).
      rewrite E1 in Hin. rewrite E2.
      apply in_app_or in Hin as [Hin|[Hin|Hin]]; try discriminate;
        apply in_or_app; auto. }
    match goal with |- context [run_until _ _ _ ?x] =>
      destruct (IH x l d) as (w' & Hr & Hs & Ht) end;
      simpl; auto; try lia; try (unfold replies_pending; simpl; lia).
    exists w'. auto.
Qed.

(** On a disposed panel, letting time pass runs the timeouts all the same;
    every placeholder reply that comes due raises, the exception is
    reported, and no field changes. *)
Lemma run_until_disposed (t : N) (fuel : nat) :
  forall w : World,
    _messages (self w) = Disposed ->
    (List.length (timers w) <= fuel)%nat ->
    exists w' more,
      run_until run_callback t fuel w = Some w' /\
      self w' = self w /\
      trace w' = trace w ++ more /\
      (forall d, In (d, CbResponse) (timers w) -> (d <= t)%N ->
                 In (Uncaught (TypeError "push")) more).
Proof.
  induction fuel as [|fuel IH]; intros w Em Hlen.
  - destruct (timers w) eqn:E; [|simpl in Hlen; lia].
    exists (idle t w), []. simpl. rewrite E, app_nil_r. simpl.
    repeat split; auto; intros d [].
  - simpl. destruct (pick (timers w)) as [[[due cb] rest]|] eqn:Ep.
    2:{ exists (idle t w), []. simpl. rewrite app_nil_r. repeat split; auto.
        intros d Hd. apply pick_nil in Ep. rewrite Ep in Hd. destruct Hd. }
    destruct (N.leb_spec due t) as [Hdue|Hdue].
    2:{ exists (idle t w), []. simpl. rewrite app_nil_r. repeat split; auto.
        intros d Hd Hle. pose proof (pick_earliest _ _ _ Ep _ Hd). simpl in *. lia. }
    pose proof (pick_length _ _ _ Ep) as Hl.
    destruct (pick_split _ _ _ Ep) as (l1 & l2 & E1 & E2).
    unfold fire_next. rewrite Ep. unfold task. destruct cb; simpl run_callback.
    + rewrite response_callback_disposed by exact Em.
      match goal with |- context [run_until _ _ _ ?x] =>
        destruct (IH x) as (w' & more & Hr & H1 & H4 & H5) end;
        [exact Em | simpl; lia |].
      exists w', (Uncaught (TypeError "push") :: more).
      simpl in *. repeat split; auto.
      rewrite H4, <- app_assoc. reflexivity.
    + match goal with |- context [scroll_callback ?x] =>
        destruct (scroll_callback_frame x) as [tr' ->] end.
      match goal with |- context [run_until _ _ _ ?x] =>
        destruct (IH x) as (w' & more & Hr & H1 & H4 & H5) end;
        [exact Em | simpl; lia |].
      exists w', (tr' ++ more).
      simpl in *. repeat split; auto.
      * rewrite H4, <- app_assoc. reflexivity.
      * intros d Hd Hle. apply in_or_app. right. apply (H5 d); [|exact Hle].
        rewrite E1 in Hd. rewrite E2.
        apply in_app_or in Hd as [Hd|[Hd|Hd]]; try discriminate; apply in_or_app; auto.
Qed.

Lemma steps_disposed (ops : list Op) :
  forall w : World,
    _messages (self w) = Disposed ->
    _thinking (self w) = Disposed ->
    _messages (self (steps ops w)) = Disposed /\
    _thinking (self (steps ops w)) = Disposed.
Proof.
  induction ops as [|op ops IH]; intros w H1 H2; simpl; [auto|].
  destruct (step_disposed op w H1 H2) as (K1 & K2 & _). now apply IH.
Qed.

Lemma panel_hi_reachable : reachable panel_hi.
Proof. apply (reach_step (OpInput (lit "hi")) panel0), (reach_create 0 clock0). reflexivity. Qed.

(** Every event but the disposal leaves the log as it was, or longer at its
    end. *)
Lemma panel_step_grows (op : Op) (w : World) :
  op <> OpDispose -> grows (_messages (self w)) (_messages (self (step op w))).
Proof.
  assert (Hrefl : forall o : Observable (list ChatMessage), grows o o).
  { intros [l| |l]; simpl; try exact I; exists []; now rewrite app_nil_r. }
  assert (Hone : forall (l : list ChatMessage) x, grows (Live l) (Live (l ++ [x]))).
  { intros l x. simpl. now exists [x]. }
  assert (Hone' : forall (l : list ChatMessage) x,
             grows (Overwritten l) (Overwritten (l ++ [x]))).
  { intros l x. simpl. now exists [x]. }
  intros Hop. open_world w.
  destruct op; try congruence; simpl.
  - (* input *)
    run_js. destruct i as [old| |old]; simpl; try apply Hrefl;
      destruct (jsstring_eqb old value); apply Hrefl.
  - (* send *)
    run_js. destruct i as [text| |text]; simpl; try apply Hrefl;
      (destruct (trim text) as [|c t'] eqn:Et; simpl; [apply Hrefl|]);
      (destruct b as [[|]| |[|]]; simpl; try apply Hrefl);
      (destruct m as [l| |l]; simpl; try exact I);
      try (destruct (jsstring_eqb text [])); simpl;
      first [apply Hone | apply Hone' | apply Hrefl].
  - apply Hrefl.
  - run_js. apply Hrefl.
  - run_js. apply Hrefl.
  - run_js. apply Hrefl.
  - (* timeout *)
    unfold fire_next. simpl.
    destruct (pick ts) as [[[due [|]] rest]|]; simpl; [| |apply Hrefl].
    + run_js. destruct m as [l| |l]; simpl; try exact I;
        destruct b as [[|]| |[|]]; simpl; first [apply Hone | apply Hone'].
    + run_js. destruct r; simpl; apply Hrefl.
Qed.

Lemma consistent_steps (ops : list Op) :
  forall w : World, consistent w -> consistent (steps ops w).
Proof.
  induction ops as [|op ops IH]; intros w H; simpl; [exact H|].
  apply IH, consistent_step, H.
Qed.

Lemma steps_snoc (ops : list Op) (op : Op) (w : World) :
  steps (ops ++ [op]) w = step op (steps ops w).
Proof. unfold steps. now rewrite fold_left_app. Qed.

(** While a reply is awaited, whatever the user does and whichever timeouts
    run, the log stays as it is until the reply is appended: the entry after
    the last one is the placeholder. *)
Lemma reply_comes_next (ops : list Op) :
  forall (w : World) l,
    consistent w ->
    _messages (self w) = Live l ->
    _thinking (self w) = Live true ->
    ~ In OpDispose ops ->
    (_messages (self (steps ops w)) = Live l /\
     _thinking (self (steps ops w)) = Live true) \/
    (exists more, _messages (self (steps ops w)) = Live (l ++ placeholder :: more)).
Proof.
  induction ops as [|op ops IH] using rev_ind; intros w l Hc Em Eb Hnd.
  - left. simpl. auto.
  - rewrite steps_snoc.
    assert (Hop : op <> OpDispose).
    { intros ->. apply Hnd, in_or_app. right. now left. }
    assert (Hnd' : ~ In OpDispose ops).
    { intros Hin. apply Hnd, in_or_app. now left. }
    pose proof (consistent_steps ops w Hc) as Hc'.
    destruct (IH w l Hc Em Eb Hnd') as [[Em' Eb']|[more Em']].
    + (* the reply is still to come *)
      set (v := steps ops w) in *.
      unfold consistent in Hc'. rewrite Em', Eb' in Hc'.
      destruct (_inputText (self v)) as [text| |text] eqn:Ei'; try contradiction.
      assert (Hother : op <> OpSend -> op <> OpTimer ->
                       _messages (self (step op v)) = Live l /\
                       _thinking (self (step op v)) = Live true).
      { intros N1 N2. destruct (step_other op v N1 N2 Hop) as (H1 & H2 & _).
        now rewrite H1, H2. }
      destruct op; try congruence; try (left; apply Hother; discriminate).
      * rewrite (step_send_live v l text true Em' Ei' Eb'), orb_true_r. auto.
      * pose proof (step_timer_live v l true Em' Eb') as H.
        destruct (pick (timers v)) as [[[due [|]] rest]|].
        -- right. exists []. rewrite H. reflexivity.
        -- destruct H as [tr' ->]. left. simpl. auto.
        -- rewrite H. auto.
    + (* the reply is in the log *)
      right. pose proof (panel_step_grows op (steps ops w) Hop) as Hg.
      rewrite Em' in Hg.
      destruct (_messages (self (step op (steps ops w)))) as [l'| |l']; try contradiction.
      destruct Hg as [more' ->]. exists (more ++ more').
      now rewrite <- app_assoc.
Qed.

(** *** The statements about the conversation log *)

(** C1.  On a panel that is alive and not busy, a send of text that does not
    trim to nothing appends one entry of sender [user] to the log and sets the
    busy flag; the log already holds that entry when the reply is scheduled,
    1500 ms ahead; until then the fields stay as they are; and once the delay
    has elapsed the log holds one more entry, the placeholder of sender [ai],
    right after the user's, and the busy flag is clear.  Whatever else
    happens to the panel short of its disposal (typing, further sends, other
    timeouts), the log is the one left by the send until the placeholder is
    appended right after the user's entry. *)
Theorem send_then_reply (w : World) (l : list ChatMessage) (text : jsstring) :
  reachable w ->
  _messages (self w) = Live l ->
  _inputText (self w) = Live text ->
  _thinking (self w) = Live false ->
  trim text <> [] ->
  let m := user_message (trim text) in
  exists w1 s1 s2 s3,
    _sendMessage w = Ok tt w1 /\
    _messages (self w1) = Live (l ++ [m]) /\ sender m = user /\
    _thinking (self w1) = Live true /\
    trace w1 =
      trace w ++ [ Notify "_messages" s1; Notify "_inputText" s2;
                   Dom "document.querySelector"; Notify "_thinking" s3;
                   SetTimeout CbScroll 100; SetTimeout CbResponse 1500 ] /\
    _messages s1 = Live (l ++ [m]) /\
    timers w1 =
      timers w ++ [((now w + 100)%N, CbScroll); ((now w + 1500)%N, CbResponse)] /\
    (forall t fuel, (t < now w + 1500)%N -> (List.length (timers w1) <= fuel)%nat ->
       exists w2, run_until run_callback t fuel w1 = Some w2 /\ self w2 = self w1) /\
    (forall t fuel, (now w + 1500 <= t)%N -> (List.length (timers w1) < fuel)%nat ->
       exists w2, run_until run_callback t fuel w1 = Some w2 /\
         _messages (self w2) = Live (l ++ [m; placeholder]) /\
         sender placeholder = ai /\
         _thinking (self w2) = Live false /\
         replies_pending w2 = 0%nat) /\
    (forall ops, ~ In OpDispose ops ->
       (_messages (self (steps ops w1)) = Live (l ++ [m]) /\
        _thinking (self (steps ops w1)) = Live true) \/
       (exists more,
           _messages (self (steps ops w1)) = Live (l ++ m :: placeholder :: more))).
Proof.
  intros Hr Em Ei Eb Ht m.
  pose proof (reachable_consistent w Hr) as Hc.
  unfold consistent in Hc. rewrite Em, Ei, Eb in Hc. destruct Hc as [_ Hn].
  pose proof (no_reply_pending w Hn) as Hnone.
  set (w1 := sent w l text).
  exists w1. do 3 eexists.
  split; [apply sendMessage_accepts; assumption|].
  do 6 (split; [reflexivity|]).
  split; [|split].
  - intros t fuel Hlt Hlen.
    destruct (run_until_quiet t fuel w1) as (w2 & H1 & H2 & _); [|exact Hlen|eauto].
    intros d Hd. unfold w1, sent in Hd. simpl in Hd.
    apply in_app_or in Hd as [Hd|[Hd|[Hd|[]]]]; try discriminate.
    + now apply Hnone in Hd.
    + injection Hd as <-. exact Hlt.
  - intros t fuel Hle Hlen.
    destruct (run_until_reply t fuel w1 (l ++ [m]) (now w + 1500)%N)
      as (w2 & H1 & H2 & H3); try reflexivity; try assumption.
    + unfold replies_pending, w1, sent. simpl. rewrite filter_reply_app.
      unfold replies_pending in Hn. rewrite Hn. reflexivity.
    + unfold w1, sent. simpl. apply in_or_app. right. right. now left.
    + exists w2. rewrite H2. simpl. rewrite <- app_assoc. auto.
  - intros ops Hnd.
    assert (Hc1 : consistent w1).
    { unfold w1. replace (sent w l text) with (step OpSend w).
      - apply consistent_step, reachable_consistent, Hr.
      - rewrite (step_send_live w l text false Em Ei Eb).
        destruct (trim text); [congruence|reflexivity]. }
    destruct (reply_comes_next ops w1 (l ++ [m]) Hc1 eq_refl eq_refl Hnd) as [H|[more H]].
    + left. exact H.
    + right. exists more. rewrite H, <- app_assoc. reflexivity.
Qed.

(** C1 on the panel where the user typed "hi". *)
Lemma send_then_reply_witness :
  (reachable panel_hi /\ trim (lit "hi") <> []) /\
  exists w1 w2,
    _sendMessage panel_hi = Ok tt w1 /\
    run_until run_callback 1500 3 w1 = Some w2 /\
    _messages (self w2) = Live [welcome; user_message (lit "hi"); placeholder] /\
    _thinking (self w2) = Live false.
Proof.
  assert (Hne : trim (lit "hi") <> []) by (vm_compute; discriminate).
  split; [split; [exact panel_hi_reachable | exact Hne]|].
  destruct (send_then_reply panel_hi [welcome] (lit "hi")
              panel_hi_reachable eq_refl eq_refl eq_refl Hne)
    as (w1 & s1 & s2 & s3 & H1 & _ & _ & _ & _ & _ & H7 & _ & H9 & _).
  destruct (H9 1500%N 3%nat) as (w2 & K1 & K2 & _ & K4 & _).
  - vm_compute. discriminate.
  - rewrite H7. vm_compute. lia.
  - exists w1, w2. auto.
Defined.

(** C3.  A send while the busy flag is set ends at once and leaves the world
    as it was: the log and its length, the input buffer, the busy flag, the
    timers, and no effect is emitted. *)
Theorem send_while_busy (w : World) (text : jsstring) :
  _inputText (self w) = Live text ->
  _thinking (self w) = Live true ->
  _sendMessage w = Ok tt w /\ step OpSend w = w.
Proof.
  intros Ei Eb.
  assert (H : _sendMessage w = Ok tt w).
  { pose proof (sendMessage_busy w Eb) as H.
    destruct (_sendMessage w) eqn:E; simpl in H; subst.
    - now destruct a.
    - exfalso. open_world w. simpl in *. subst. revert E. run_js.
      rewrite orb_true_r. discriminate. }
  split; [exact H|]. unfold step, task, on_send. now rewrite H.
Qed.

(** C3 on the panel that awaits the reply to "hi", with "again" typed. *)
Lemma send_while_busy_witness :
  let w := step OpSend panel_hi in
  _thinking (self w) = Live true /\
  _sendMessage (step (OpInput (lit "again")) w) = Ok tt (step (OpInput (lit "again")) w).
Proof.
  split; [reflexivity|].
  exact (proj1 (send_while_busy (step (OpInput (lit "again")) (step OpSend panel_hi))
                  (lit "again") eq_refl eq_refl)).
Defined.

(** C10.  The constructor leaves exactly one message in the log, the welcome
    message of sender [ai]; and in every state a panel can be in, a log that
    is still alive starts with that message, so it is never empty. *)
Theorem log_never_empty :
  (forall t0 clk, exists w,
      create t0 clk = Ok tt w /\ _messages (self w) = Live [welcome] /\ sender welcome = ai) /\
  (forall w l, reachable w -> _messages (self w) = Live l ->
      l <> [] /\ hd_error l = Some welcome).
Proof.
  split.
  - intros t0 clk. eexists. rewrite panel_create_world. repeat split.
  - intros w l Hr Em. apply reachable_consistent in Hr. unfold consistent in Hr.
    rewrite Em in Hr.
    destruct (_inputText (self w)); try contradiction.
    destruct (_thinking (self w)); try contradiction.
    destruct Hr as [[tl ->] _]. split; [discriminate|reflexivity].
Qed.

(** C10 on the panel after the send of "hi". *)
Lemma log_never_empty_witness :
  reachable (step OpSend panel_hi) /\
  [welcome; user_message (lit "hi")] <> [] /\
  hd_error [welcome; user_message (lit "hi")] = Some welcome.
Proof.
  assert (Hr : reachable (step OpSend panel_hi))
    by (apply reach_step, panel_hi_reachable).
  split; [exact Hr|].
  exact (proj2 log_never_empty (step OpSend panel_hi)
           [welcome; user_message (lit "hi")] Hr eq_refl).
Defined.

(** No event but the disposal touches the flag [isDisposed]. *)
Lemma step_keeps_flag (op : Op) (w : World) :
  op <> OpDispose -> isDisposed (self (step op w)) = isDisposed (self w).
Proof.
  intros Hop. open_world w. destruct op; try congruence; simpl.
  - run_js. destruct i as [old| |old]; simpl; try reflexivity;
      destruct (jsstring_eqb old value); reflexivity.
  - run_js. destruct i as [text| |text]; simpl; try reflexivity;
      (destruct (trim text) as [|c t'] eqn:Et; simpl; [reflexivity|]);
      (destruct b as [[|]| |[|]]; simpl; try reflexivity);
      (destruct m as [l| |l]; simpl; try reflexivity);
      try (destruct (jsstring_eqb text [])); reflexivity.
  - reflexivity.
  - run_js. reflexivity.
  - run_js. reflexivity.
  - run_js. reflexivity.
  - unfold fire_next. simpl.
    destruct (pick ts) as [[[due [|]] rest]|]; simpl; [| |reflexivity].
    + run_js. destruct m as [l| |l]; simpl; try reflexivity;
        destruct b as [[|]| |[|]]; reflexivity.
    + run_js. destruct r; reflexivity.
Qed.

(** A panel whose log is alive was not disposed. *)
Lemma reachable_undisposed (w : World) :
  reachable w -> forall l, _messages (self w) = Live l -> isDisposed (self w) = false.
Proof.
  induction 1 as [t0 clk w H|op w Hr IH]; intros l Em.
  - rewrite panel_create_world in H. injection H as <-. reflexivity.
  - assert (Hd : forall v : World,
               isDisposed (self v) = true -> step OpDispose v =
                 mkWorld (self v) (now v) (timers v) (wallclock v) (reads v)
                   (trace v ++ [ConsoleErrorText
                      (lit "Error disposing ChatPanel which is already disposed")])).
    { intros v Hv. simpl. unfold dispose. rewrite Hv. reflexivity. }
    destruct op;
      try (rewrite step_keeps_flag by discriminate;
           match type of Em with context [step ?o w] =>
             pose proof (panel_step_grows o w ltac:(discriminate)) as Hg end;
           rewrite Em in Hg;
           destruct (_messages (self w)) as [l0| |l0] eqn:E0; try contradiction;
           exact (IH l0 eq_refl)).
    destruct (isDisposed (self w)) eqn:Eg.
    + rewrite (Hd w Eg) in Em. simpl in Em. discriminate (IH l Em).
    + exfalso. simpl in Em. unfold dispose in Em. rewrite Eg in Em. discriminate.
Qed.

(** C2.  A panel is disposed while a reply is awaited: at any point after
    the send and before the reply has run, whatever was typed or scrolled in
    between.  The scheduled append then has no effect.  The reply is still
    due; when its closure is run, at whatever moment after the disposal, the
    push on the disposed log raises before anything is appended and the
    closure leaves the world as it found it.  From the disposal on, whatever
    happens (timeouts, typing, sends, another disposal) and however much time
    passes, the log and the busy flag are as the disposal left them: the log
    does not grow and the flag does not change. *)
Theorem no_growth_after_dispose (w : World) :
  reachable w ->
  _thinking (self w) = Live true ->
  let w2 := step OpDispose w in
  replies_pending w2 = 1%nat /\
  _messages (self w2) = Disposed /\
  _thinking (self w2) = Disposed /\
  (forall ops,
     _messages (self (steps ops w2)) = _messages (self w2) /\
     _thinking (self (steps ops w2)) = _thinking (self w2) /\
     response_callback (steps ops w2) = Throw (TypeError "push") (steps ops w2)) /\
  (forall t fuel, (List.length (timers w2) <= fuel)%nat ->
     exists w3, run_until run_callback t fuel w2 = Some w3 /\ self w3 = self w2).
Proof.
  intros Hr Eb w2.
  pose proof (reachable_consistent w Hr) as Hc. unfold consistent in Hc.
  rewrite Eb in Hc.
  destruct (_messages (self w)) as [l| |l] eqn:Em;
    destruct (_inputText (self w)) as [text| |text] eqn:Ei; try contradiction.
  destruct Hc as [_ Hn].
  pose proof (reachable_undisposed w Hr l Em) as Eg.
  assert (E2 : w2 = mkWorld (mkFields Disposed Disposed Disposed
                               (_messagesEndRef (self w)) true)
                      (now w) (timers w) (wallclock w) (reads w) (trace w)).
  { unfold w2. simpl. unfold dispose. rewrite Eg. reflexivity. }
  rewrite E2.
  split; [exact Hn|]. split; [reflexivity|]. split; [reflexivity|]. split.
  - intros ops.
    match goal with |- context [steps ops ?v] =>
      destruct (steps_disposed ops v eq_refl eq_refl) as [H1 H2] end.
    rewrite H1, H2. repeat split.
    apply response_callback_disposed. exact H1.
  - intros t fuel Hlen.
    match goal with |- context [run_until _ _ _ ?v] =>
      destruct (run_until_disposed t fuel v eq_refl Hlen) as (w3 & more & H1 & H2 & _) end.
    exists w3. auto.
Qed.

(** C2 on the panel where "hi" was sent, the scroll ran, and "more" was
    typed before the disposal; then the reply comes due, "x" is typed and
    sent, and the panel is disposed again. *)
Lemma no_growth_after_dispose_witness :
  let w := steps [OpSend; OpTimer; OpInput (lit "more")] panel_hi in
  let w2 := step OpDispose w in
  (reachable w /\ _thinking (self w) = Live true) /\
  timers w2 = [(1500%N, CbResponse)] /\
  _messages (self (steps [OpTimer; OpInput (lit "x"); OpSend; OpDispose] w2)) = Disposed /\
  _thinking (self (steps [OpTimer; OpInput (lit "x"); OpSend; OpDispose] w2)) = Disposed.
Proof.
  assert (Hr : reachable (steps [OpSend; OpTimer; OpInput (lit "more")] panel_hi)).
  { apply (reach_step (OpInput (lit "more")) (step OpTimer (step OpSend panel_hi))),
      (reach_step OpTimer (step OpSend panel_hi)), (reach_step OpSend panel_hi),
      panel_hi_reachable. }
  assert (Eb : _thinking (self (steps [OpSend; OpTimer; OpInput (lit "more")] panel_hi))
               = Live true) by reflexivity.
  split; [split; [exact Hr|exact Eb]|]. split; [reflexivity|].
  destruct (no_growth_after_dispose _ Hr Eb) as (_ & _ & _ & H & _).
  destruct (H [OpTimer; OpInput (lit "x"); OpSend; OpDispose]) as (H1 & H2 & _).
  split; [exact H1|exact H2].
Defined.

End ChatPanelFacts.

(** ** AgentModePage *)

Module AgentFacts.
Import JS GrainJS AgentModePage ChatPanelSpec AgentSpec JSFacts.

Ltac open_page w :=
  let th := fresh "th" in let ac := fresh "ac" in let st := fresh "st" in
  let sc := fresh "sc" in let mem := fresh "mem" in let code := fresh "code" in
  let p := fresh "p" in let au := fresh "au" in let sel := fresh "sel" in
  let lp := fresh "lp" in let n := fresh "n" in let ts := fresh "ts" in
  let clk := fresh "clk" in let k := fresh "k" in let tr := fresh "tr" in
  destruct w as [[th ac st sc mem code p au sel lp] n ts clk k tr].

Ltac run_page :=
  unfold step, handler, _sendAgentCommand, _togglePause, _clearAgent, _showSettings,
    _exitAgentMode, _togglePermission, console_log,
    get_push, set_copy, set_fresh, set, get, must, emit, Date_now, bind, ret, throw,
    task, with_self, with_trace;
  simpl.

Lemma schema_is_new : jsstring_eqb [] (JSON.stringify sample_schema 2) = false.
Proof. vm_compute. reflexivity. Qed.

Lemma code_is_new : jsstring_eqb [] sample_code = false.
Proof. vm_compute. reflexivity. Qed.

#[local] Opaque sample_thoughts sample_actions sample_steps sample_schema
  sample_code sample_memory JSON.stringify jsstring_eqb lit trim.

(** The world the constructor ends in. *)
Lemma page_create_world (t0 : N) (clk : nat -> Z) :
  exists tr, create t0 clk = Ok tt (mkWorld (seeded clk) t0 [] clk 8 tr).
Proof.
  lazy. rewrite schema_is_new. lazy. rewrite code_is_new. lazy.
  eexists. reflexivity.
Qed.

Lemma page_at_fields (t : Z) : self (page_at t) = seeded (clock_at t).
Proof.
  unfold page_at. destruct (page_create_world 0 (clock_at t)) as [tr ->]. reflexivity.
Qed.

Lemma page0_fields : self page0 = seeded (clock_at 1700000000000).
Proof. apply page_at_fields. Qed.

#[local] Opaque create page_at page0.

(** *** The methods, one by one *)

Lemma sendAgentCommand_blank (command : jsstring) (w : World) :
  trim command = [] -> _sendAgentCommand command w = Ok tt w.
Proof. intros H. unfold _sendAgentCommand. rewrite H. reflexivity. Qed.

Lemma sendAgentCommand_accepts (command : jsstring) (w : World) th :
  _thoughts (self w) = Live th ->
  trim command <> [] ->
  let s' := fput f_thoughts
              (Live (th ++ [processing (wallclock w (reads w)) command])) (self w) in
  _sendAgentCommand command w =
  Ok tt (mkWorld s' (now w) (timers w) (wallclock w) (Datatypes.S (reads w))
           (trace w ++ [Notify "_thoughts" s'; ConsoleLog [lit "Agent command:"; command]])).
Proof.
  open_page w. cbn. intros -> Ht.
  unfold _sendAgentCommand. destruct (trim command); [congruence|].
  run_page. rewrite <- app_assoc. reflexivity.
Qed.

Lemma clearAgent_runs (w : World) th ac st mem :
  _thoughts (self w) = Live th ->
  _actions (self w) = Live ac ->
  _executionSteps (self w) = Live st ->
  _memoryContext (self w) = Live mem ->
  let s1 := fput f_thoughts (Live []) (self w) in
  let s2 := fput f_actions (Live []) s1 in
  let s3 := fput f_executionSteps (Live []) s2 in
  let s4 := fput f_memoryContext (Live []) s3 in
  _clearAgent w =
  Ok tt (mkWorld s4 (now w) (timers w) (wallclock w) (reads w)
           (trace w ++ [ Notify "_thoughts" s1; Notify "_actions" s2;
                         Notify "_executionSteps" s3; Notify "_memoryContext" s4 ])).
Proof.
  open_page w. cbn. intros -> -> -> ->. run_page.
  repeat rewrite <- app_assoc. reflexivity.
Qed.

Lemma skipn_added {A} (l more : list A) : skipn (List.length l) (l ++ more) = more.
Proof. induction l; simpl; auto. Qed.

(** An event other than the clear leaves the action, step and memory logs
    alone, and the thought log as it was or longer at its end. *)
Lemma page_step_grows (op : Op) (w : World) :
  op <> OpClear ->
  grows (_thoughts (self w)) (_thoughts (self (step op w))) /\
  _actions (self (step op w)) = _actions (self w) /\
  _executionSteps (self (step op w)) = _executionSteps (self w) /\
  _memoryContext (self (step op w)) = _memoryContext (self w).
Proof.
  assert (Hrefl : forall o : Observable (list AgentThought.t), grows o o).
  { intros [l| |l]; simpl; [exists []; now rewrite app_nil_r|exact I|
                            exists []; now rewrite app_nil_r]. }
  intros Hop. open_page w.
  destruct op; try congruence.
  - (* command *)
    unfold step, handler, task, bind, _sendAgentCommand.
    destruct (trim text); cbn; [repeat split; try apply Hrefl; auto|].
    run_page. destruct th as [l| |l]; cbn; repeat split; try apply Hrefl; auto;
      now exists [processing (clk k) text].
  - (* pause *)
    run_page. destruct p as [[|]| |[|]]; cbn; repeat split; try apply Hrefl; auto.
  - cbn. repeat split; try apply Hrefl; auto.
  - cbn. repeat split; try apply Hrefl; auto.
  - cbn. repeat split; try apply Hrefl; auto.
Qed.

(** Toggling the pause flag leaves every log as it is. *)
Lemma togglePause_logs (w : World) :
  let w' := step OpTogglePause w in
  _thoughts (self w') = _thoughts (self w) /\
  _actions (self w') = _actions (self w) /\
  _executionSteps (self w') = _executionSteps (self w) /\
  _memoryContext (self w') = _memoryContext (self w).
Proof.
  open_page w. run_page. destruct p as [[|]| |[|]]; cbn; auto.
Qed.

(** *** The statements about the agent logs *)

(** What the subscribers are shown during a clear. *)
Lemma notified_by_clear (w : World) th ac st mem :
  _thoughts (self w) = Live th ->
  _actions (self w) = Live ac ->
  _executionSteps (self w) = Live st ->
  _memoryContext (self w) = Live mem ->
  let s1 := fput f_thoughts (Live []) (self w) in
  let s2 := fput f_actions (Live []) s1 in
  let s3 := fput f_executionSteps (Live []) s2 in
  let s4 := fput f_memoryContext (Live []) s3 in
  notified_by _clearAgent w = [s1; s2; s3; s4] /\
  logs (self w) = Some (th, ac, st) /\
  logs s1 = Some ([], ac, st) /\
  logs s2 = Some ([], [], st) /\
  logs s3 = Some ([], [], []) /\
  logs s4 = Some ([], [], []).
Proof.
  intros E1 E2 E3 E4.
  pose proof (clearAgent_runs w th ac st mem E1 E2 E3 E4) as Hc. cbv zeta in Hc.
  unfold notified_by. rewrite Hc. clear Hc.
  open_page w. cbn in E1, E2, E3, E4. subst.
  cbn [world_of trace self]. rewrite skipn_added. cbn. repeat split.
Qed.

(** A clear of a page whose thought and action logs are not empty shows its
    subscribers a state that is neither the old one nor the cleared one. *)
Lemma clear_shows_partial_state (w : World) th ac st mem :
  _thoughts (self w) = Live th ->
  _actions (self w) = Live ac ->
  _executionSteps (self w) = Live st ->
  _memoryContext (self w) = Live mem ->
  th <> [] -> ac <> [] ->
  ~ clear_is_atomic w.
Proof.
  intros E1 E2 E3 E4 Hth Hac H.
  destruct (notified_by_clear w th ac st mem E1 E2 E3 E4) as (Hn & H0 & H1 & _).
  specialize (H (fput f_thoughts (Live []) (self w))).
  rewrite Hn, H0, H1 in H.
  destruct (H (or_introl eq_refl)) as [K|K]; injection K; intros; congruence.
Qed.

(** C5, as stated, fails.  When the seeded page is cleared, the subscribers
    of the thought log run while the thought log is empty and the action log
    still has its four entries. *)
Lemma clear_is_atomic_counterexample : ~ clear_is_atomic page0.
Proof.
  pose proof page0_fields as Hs.
  apply (clear_shows_partial_state page0
           (sample_thoughts 1700000000000 1700000000000 1700000000000 1700000000000)
           (sample_actions 1700000000000 1700000000000 1700000000000 1700000000000)
           sample_steps sample_memory);
    try (rewrite Hs; reflexivity).
  - with_strategy transparent [sample_thoughts] (unfold sample_thoughts). discriminate.
  - with_strategy transparent [sample_actions] (unfold sample_actions). discriminate.
Qed.

(** C5, amended.  The clear empties the logs one after the other, in the
    order thoughts, actions, execution steps, memory context, and each
    update runs its subscribers before the next log is emptied: they are
    shown the thought log empty next to the old action and step logs, then
    thoughts and actions empty next to the old step log, and only then the
    three logs empty.  When the call has returned each log has length 0.
    The call is one task of the event loop. *)
Theorem clear_empties_logs_in_turn (w : World) th ac st mem :
  _thoughts (self w) = Live th ->
  _actions (self w) = Live ac ->
  _executionSteps (self w) = Live st ->
  _memoryContext (self w) = Live mem ->
  exists w' s1 s2 s3 s4,
    _clearAgent w = Ok tt w' /\ step OpClear w = w' /\
    _thoughts (self w') = Live [] /\
    _actions (self w') = Live [] /\
    _executionSteps (self w') = Live [] /\
    notified_by _clearAgent w = [s1; s2; s3; s4] /\
    logs s1 = Some ([], ac, st) /\
    logs s2 = Some ([], [], st) /\
    logs s3 = Some ([], [], []) /\
    logs s4 = Some ([], [], []) /\ s4 = self w'.
Proof.
  intros E1 E2 E3 E4.
  pose proof (clearAgent_runs w th ac st mem E1 E2 E3 E4) as Hc. cbv zeta in Hc.
  destruct (notified_by_clear w th ac st mem E1 E2 E3 E4) as (Hn & _ & H1 & H2 & H3 & H4).
  do 5 eexists. split; [exact Hc|].
  split; [unfold step, task, handler; rewrite Hc; reflexivity|].
  cbn [self].
  split; [|split; [|split; [|split; [exact Hn|repeat split; assumption]]]];
    clear - E1 E2 E3 E4; open_page w; reflexivity.
Qed.

(** C5, amended, on the seeded page. *)
Lemma clear_empties_logs_in_turn_witness :
  exists w',
    _clearAgent page0 = Ok tt w' /\
    _thoughts (self w') = Live [] /\
    _actions (self w') = Live [] /\
    _executionSteps (self w') = Live [].
Proof.
  pose proof page0_fields as Hs.
  destruct (clear_empties_logs_in_turn page0
              (sample_thoughts 1700000000000 1700000000000 1700000000000 1700000000000)
              (sample_actions 1700000000000 1700000000000 1700000000000 1700000000000)
              sample_steps sample_memory)
    as (w' & s1 & s2 & s3 & s4 & H1 & _ & H3 & H4 & H5 & _);
    try (rewrite Hs; reflexivity).
  exists w'. auto.
Defined.

(** C6, as stated, fails.  Two runs of the seeding whose wall clocks differ
    by one millisecond leave different thought logs. *)
Lemma seeding_reproducible_counterexample :
  _thoughts (self (page_at 0)) <> _thoughts (self (page_at 1)).
Proof.
  rewrite !page_at_fields. unfold seeded, clock_at. cbn.
  with_strategy transparent [sample_thoughts] (unfold sample_thoughts).
  intros H. discriminate H.
Qed.

(** C6, amended.  The seeding leaves 4 thoughts, 3 execution steps and 4
    actions.  The step log is the same in every run.  The thought and action
    logs are the same in every run but for their timestamps, which are the
    eight successive readings of the wall clock less fixed offsets; two runs
    that read the same times leave the same logs. *)
Theorem seeding_fixture :
  (forall t0 clk, exists w,
      create t0 clk = Ok tt w /\
      _thoughts (self w) =
        Live (sample_thoughts (clk 0%nat) (clk 1%nat) (clk 2%nat) (clk 3%nat)) /\
      _executionSteps (self w) = Live sample_steps /\
      _actions (self w) =
        Live (sample_actions (clk 4%nat) (clk 5%nat) (clk 6%nat) (clk 7%nat))) /\
  (forall a b c d,
      List.length (sample_thoughts a b c d) = 4%nat /\
      List.length (sample_actions a b c d) = 4%nat /\
      map AgentThought.timestamp (sample_thoughts a b c d)
        = [a - 5000; b - 4000; c - 2000; d - 1000]%Z /\
      map AgentAction.timestamp (sample_actions a b c d)
        = [a - 10000; b - 8000; c - 5000; d - 3000]%Z) /\
  List.length sample_steps = 3%nat /\
  (forall a b c d a' b' c' d',
      map thought_body (sample_thoughts a b c d)
        = map thought_body (sample_thoughts a' b' c' d') /\
      map action_body (sample_actions a b c d)
        = map action_body (sample_actions a' b' c' d')) /\
  (forall t0 clk t0' clk',
      (forall i, (i < 8)%nat -> clk i = clk' i) ->
      self (world_of (create t0 clk)) = self (world_of (create t0' clk'))).
Proof.
  split.
  { intros t0 clk. destruct (page_create_world t0 clk) as [tr Hc].
    eexists. split; [exact Hc|]. repeat split. }
  split;
    [intros; with_strategy transparent [sample_thoughts sample_actions]
               (unfold sample_thoughts, sample_actions); repeat split|].
  split; [with_strategy transparent [sample_steps] (unfold sample_steps); reflexivity|].
  split;
    [intros; with_strategy transparent [sample_thoughts sample_actions]
               (unfold sample_thoughts, sample_actions); split; reflexivity|].
  intros t0 clk t0' clk' H.
  destruct (page_create_world t0 clk) as [tr ->].
  destruct (page_create_world t0' clk') as [tr' ->].
  cbn [world_of self]. unfold seeded.
  rewrite !H by lia. reflexivity.
Qed.

(** C6, amended, on two wall clocks that agree on their first eight readings. *)
Lemma seeding_fixture_witness :
  (forall i, (i < 8)%nat -> clock_at 5 i = (fun n => if (n <? 8)%nat then 5%Z else 6%Z) i) /\
  self (world_of (create 0 (clock_at 5)))
    = self (world_of (create 7 (fun n => if (n <? 8)%nat then 5%Z else 6%Z))).
Proof.
  assert (H : forall i, (i < 8)%nat ->
                clock_at 5 i = (fun n => if (n <? 8)%nat then 5%Z else 6%Z) i).
  { intros i Hi. unfold clock_at. cbn beta.
    destruct (Nat.ltb_spec i 8); [reflexivity|lia]. }
  split; [exact H|].
  exact (proj2 (proj2 (proj2 (proj2 seeding_fixture))) 0%N (clock_at 5) 7%N _ H).
Defined.

(** C7, as stated, fails.  The string of one space is not empty, and
    submitting it appends no thought: the world is left as it was. *)
Lemma nonempty_command_counterexample :
  [32%N] <> [] /\
  _sendAgentCommand [32%N] page0 = Ok tt page0 /\
  _thoughts (self (world_of (_sendAgentCommand [32%N] page0))) = _thoughts (self page0).
Proof.
  assert (H : _sendAgentCommand [32%N] page0 = Ok tt page0).
  { apply sendAgentCommand_blank. vm_compute. reflexivity. }
  split; [discriminate|]. split; [exact H|]. rewrite H. reflexivity.
Qed.

(** C7, amended.  For every command that does not trim to the empty string,
    submitting it appends exactly one thought of type [thinking] whose
    message is [Processing: "<command>"], stamped with the wall clock;
    every other field is left as it was, so the action and execution-step
    logs are unchanged; no timer is set, and the only effects are the
    notification of the thought log and one line on the console. *)
Theorem command_appends_thinking (w : World) th (command : jsstring) :
  _thoughts (self w) = Live th ->
  trim command <> [] ->
  let thought := processing (wallclock w (reads w)) command in
  exists w',
    _sendAgentCommand command w = Ok tt w' /\
    _thoughts (self w') = Live (th ++ [thought]) /\
    AgentThought.type thought = AgentThought.thinking /\
    AgentThought.message thought = lit "Processing: " ++ [dquote] ++ command ++ [dquote] /\
    self w' = fput f_thoughts (Live (th ++ [thought])) (self w) /\
    _actions (self w') = _actions (self w) /\
    _executionSteps (self w') = _executionSteps (self w) /\
    timers w' = timers w /\
    trace w' = trace w ++ [ Notify "_thoughts" (self w');
                            ConsoleLog [lit "Agent command:"; command] ].
Proof.
  intros E Ht thought.
  pose proof (sendAgentCommand_accepts command w th E Ht) as H. cbv zeta in H.
  eexists. split; [exact H|].
  open_page w. cbn in *. repeat split.
Qed.

(** C7, amended, on the seeded page. *)
Lemma command_appends_thinking_witness :
  trim (lit "sum the orders") <> [] /\
  exists w',
    _sendAgentCommand (lit "sum the orders") page0 = Ok tt w' /\
    _thoughts (self w') =
      Live (sample_thoughts 1700000000000 1700000000000 1700000000000 1700000000000
            ++ [processing 1700000000000 (lit "sum the orders")]).
Proof.
  assert (Hne : trim (lit "sum the orders") <> []) by (vm_compute; discriminate).
  split; [exact Hne|].
  pose proof page0_fields as Hs.
  destruct (command_appends_thinking page0
              (sample_thoughts 1700000000000 1700000000000 1700000000000 1700000000000)
              (lit "sum the orders") ltac:(rewrite Hs; reflexivity) Hne)
    as (w' & H1 & H2 & _).
  exists w'. split; [exact H1|exact H2].
Defined.

(** C9.  The clear empties the four list logs (thoughts, actions, execution
    steps and the memory context) and leaves every other field as it was:
    schema, generated code, pause flag, auto-scroll and live-preview flags,
    and the selected action.  On a page fresh from its constructor the
    selected action is still the third sample action after the clear,
    although the action log is empty. *)
Theorem clear_frame :
  (forall (w : World) th ac st mem,
      _thoughts (self w) = Live th ->
      _actions (self w) = Live ac ->
      _executionSteps (self w) = Live st ->
      _memoryContext (self w) = Live mem ->
      exists w',
        _clearAgent w = Ok tt w' /\
        _thoughts (self w') = Live [] /\
        _actions (self w') = Live [] /\
        _executionSteps (self w') = Live [] /\
        _memoryContext (self w') = Live [] /\
        _schema (self w') = _schema (self w) /\
        _generatedCode (self w') = _generatedCode (self w) /\
        _isPaused (self w') = _isPaused (self w) /\
        _autoScroll (self w') = _autoScroll (self w) /\
        _selectedAction (self w') = _selectedAction (self w) /\
        _livePreviewEnabled (self w') = _livePreviewEnabled (self w) /\
        now w' = now w /\ timers w' = timers w /\ reads w' = reads w) /\
  (forall t0 clk,
      let w' := step OpClear (world_of (create t0 clk)) in
      _actions (self w') = Live [] /\
      exists third,
        _selectedAction (self w') = Live (Some third) /\
        AgentAction.id third = lit "3" /\
        AgentAction.timestamp third = (clk 6%nat - 5000)%Z).
Proof.
  split.
  - intros w th ac st mem E1 E2 E3 E4.
    pose proof (clearAgent_runs w th ac st mem E1 E2 E3 E4) as Hc. cbv zeta in Hc.
    eexists. split; [exact Hc|].
    open_page w. cbn in *. repeat split.
  - intros t0 clk. destruct (page_create_world t0 clk) as [tr Hc]. rewrite Hc.
    cbn [world_of]. cbv zeta.
    assert (E : step OpClear (mkWorld (seeded clk) t0 [] clk 8 tr)
                = world_of (_clearAgent (mkWorld (seeded clk) t0 [] clk 8 tr))).
    { unfold step, task, handler.
      destruct (_clearAgent (mkWorld (seeded clk) t0 [] clk 8 tr)) eqn:K; [reflexivity|].
      exfalso. revert K.
      erewrite clearAgent_runs by reflexivity. discriminate. }
    rewrite E. erewrite clearAgent_runs by reflexivity. cbn.
    with_strategy transparent [sample_actions] (unfold sample_actions). cbn.
    split; [reflexivity|]. eexists. repeat split.
Qed.

(** C9 on the seeded page. *)
Lemma clear_frame_witness :
  exists w',
    _clearAgent page0 = Ok tt w' /\
    _memoryContext (self w') = Live [] /\
    _isPaused (self w') = _isPaused (self page0) /\
    _selectedAction (self w') = _selectedAction (self page0).
Proof.
  pose proof page0_fields as Hs.
  destruct (proj1 clear_frame page0
              (sample_thoughts 1700000000000 1700000000000 1700000000000 1700000000000)
              (sample_actions 1700000000000 1700000000000 1700000000000 1700000000000)
              sample_steps sample_memory)
    as (w' & H1 & _ & _ & _ & H5 & _ & _ & H8 & _ & H10 & _);
    try (rewrite Hs; reflexivity).
  exists w'. auto.
Defined.

End AgentFacts.

(** ** Both components *)

Module Panels.
Import JS GrainJS ChatPanelSpec JSFacts.

(** C4.  A send of text that is empty or white space only does nothing, in
    either component: [_sendMessage] and [_sendAgentCommand] return normally
    and leave the world as it was, so the conversation log and the thought
    log are unchanged, no timer is set, and nothing is reported: the trace of
    effects is the same, also through the handlers of the interface. *)
Theorem blank_send_is_noop :
  (forall (w : ChatPanel.World) text,
      ChatPanel._inputText (self w) = Live text ->
      forallb isWhiteSpace text = true ->
      ChatPanel._sendMessage w = Ok tt w /\ ChatPanel.step ChatPanel.OpSend w = w) /\
  (forall (w : AgentModePage.World) command,
      forallb isWhiteSpace command = true ->
      AgentModePage._sendAgentCommand command w = Ok tt w).
Proof.
  split.
  - intros w text Ei Hws.
    pose proof (ChatPanelFacts.sendMessage_blank w text Ei (trim_whitespace text Hws)) as H.
    split; [exact H|].
    unfold ChatPanel.step, task, ChatPanel.on_send. now rewrite H.
  - intros w command Hws.
    apply AgentFacts.sendAgentCommand_blank, trim_whitespace, Hws.
Qed.

(** C4 on a string of space, tab, line feed and no-break space. *)
Lemma blank_send_is_noop_witness :
  forallb isWhiteSpace [32; 9; 10; 160]%N = true /\
  ChatPanel._sendMessage (ChatPanel.step (ChatPanel.OpInput [32; 9; 10; 160]%N) panel0)
    = Ok tt (ChatPanel.step (ChatPanel.OpInput [32; 9; 10; 160]%N) panel0) /\
  AgentModePage._sendAgentCommand [32; 9; 10; 160]%N AgentSpec.page0 = Ok tt AgentSpec.page0.
Proof.
  assert (H : forallb isWhiteSpace [32; 9; 10; 160]%N = true) by reflexivity.
  split; [exact H|]. split.
  - exact (proj1 (proj1 blank_send_is_noop
             (ChatPanel.step (ChatPanel.OpInput [32; 9; 10; 160]%N) panel0)
             [32; 9; 10; 160]%N eq_refl H)).
  - exact (proj2 blank_send_is_noop AgentSpec.page0 [32; 9; 10; 160]%N H).
Defined.

(** C8.  Every event of the chat panel but its disposal (typing, a send, a
    timeout such as the delayed reply, the formula and menu buttons) leaves
    the conversation log as it was or longer at its end.  Every event of the
    agent page but the clear (a command, the pause button, settings, exit, a
    permission box) leaves the thought log as it was or longer at its end and
    the action, execution-step and memory logs as they were, so each log
    before the event is a prefix of the log after it.  Toggling the
    pause flag changes no log at all. *)
Theorem logs_only_grow :
  (forall (op : ChatPanel.Op) (w : ChatPanel.World),
      op <> ChatPanel.OpDispose ->
      grows (ChatPanel._messages (self w))
            (ChatPanel._messages (self (ChatPanel.step op w)))) /\
  (forall (op : AgentModePage.Op) (w : AgentModePage.World),
      op <> AgentModePage.OpClear ->
      let w' := AgentModePage.step op w in
      grows (AgentModePage._thoughts (self w)) (AgentModePage._thoughts (self w')) /\
      grows (AgentModePage._actions (self w)) (AgentModePage._actions (self w')) /\
      grows (AgentModePage._executionSteps (self w))
            (AgentModePage._executionSteps (self w')) /\
      grows (AgentModePage._memoryContext (self w))
            (AgentModePage._memoryContext (self w'))) /\
  (forall w : AgentModePage.World,
      let w' := AgentModePage.step AgentModePage.OpTogglePause w in
      AgentModePage._thoughts (self w') = AgentModePage._thoughts (self w) /\
      AgentModePage._actions (self w') = AgentModePage._actions (self w) /\
      AgentModePage._executionSteps (self w') = AgentModePage._executionSteps (self w) /\
      AgentModePage._memoryContext (self w') = AgentModePage._memoryContext (self w)).
Proof.
  assert (Hrefl : forall A (o : Observable (list A)), grows o o).
  { intros A [l| |l]; simpl; [exists []; now rewrite app_nil_r|exact I|
                              exists []; now rewrite app_nil_r]. }
  split; [exact ChatPanelFacts.panel_step_grows|].
  split; [|exact AgentFacts.togglePause_logs].
  intros op w Hop w'.
  destruct (AgentFacts.page_step_grows op w Hop) as (H1 & H2 & H3 & H4).
  unfold w'. rewrite H2, H3, H4. auto.
Qed.

(** C8 on a send of "hi" and on the command "sum". *)
Lemma logs_only_grow_witness :
  ChatPanel.OpSend <> ChatPanel.OpDispose /\
  grows (ChatPanel._messages (self panel_hi))
        (ChatPanel._messages (self (ChatPanel.step ChatPanel.OpSend panel_hi))) /\
  AgentModePage.OpCommand (lit "sum") <> AgentModePage.OpClear /\
  grows (AgentModePage._thoughts (self AgentSpec.page0))
        (AgentModePage._thoughts
           (self (AgentModePage.step (AgentModePage.OpCommand (lit "sum")) AgentSpec.page0))).
Proof.
  assert (H1 : ChatPanel.OpSend <> ChatPanel.OpDispose) by discriminate.
  assert (H2 : AgentModePage.OpCommand (lit "sum") <> AgentModePage.OpClear) by discriminate.
  split; [exact H1|]. split; [exact (proj1 logs_only_grow ChatPanel.OpSend panel_hi H1)|].
  split; [exact H2|].
  exact (proj1 (proj1 (proj2 logs_only_grow) (AgentModePage.OpCommand (lit "sum"))
                  AgentSpec.page0 H2)).
Defined.

End Panels.

(** ** More about ChatPanel *)

Module ChatPanelMore.
Import JS GrainJS ChatPanel ChatPanelSpec ChatPanelView ChatPanelShape JSFacts ChatPanelFacts.

(** *** Trimmed text *)

Lemma trimStart_split (s : jsstring) :
  exists ws, s = ws ++ trimStart s /\ forallb isWhiteSpace ws = true.
Proof.
  induction s as [|c s (ws & E & H)]; simpl.
  - now exists [].
  - destruct (isWhiteSpace c) eqn:Ec.
    + exists (c :: ws). simpl. rewrite Ec, H. split; [now f_equal|reflexivity].
    + now exists [].
Qed.

Lemma trimStart_head (s : jsstring) c s' :
  trimStart s = c :: s' -> isWhiteSpace c = false.
Proof.
  induction s as [|d s IH]; simpl; [discriminate|].
  destruct (isWhiteSpace d) eqn:Ed; [exact IH|].
  intros [= <- _]. exact Ed.
Qed.

Lemma trimStart_keeps (c : N) (s : jsstring) :
  isWhiteSpace c = false -> trimStart (c :: s) = c :: s.
Proof. intros H. simpl. now rewrite H. Qed.

(** What [trim] returns is empty, or starts and ends with a character that
    is not white space; trimming it again changes nothing. *)
Lemma trim_idempotent (s : jsstring) : trim (trim s) = trim s.
Proof.
  remember (trim s) as t eqn:Et. unfold trim in Et.
  destruct (trimStart s) as [|c a] eqn:Ea; [subst t; reflexivity|].
  pose proof (trimStart_head s c a Ea) as Hc.
  unfold trimEnd in Et.
  destruct (trimStart_split (rev (c :: a))) as (ws & E & Hws).
  destruct (trimStart (rev (c :: a))) as [|d y] eqn:Ey.
  - exfalso. rewrite app_nil_r in E.
    assert (Hin : In c ws) by (rewrite <- E; apply -> in_rev; now left).
    rewrite forallb_forall in Hws. rewrite (Hws c Hin) in Hc. discriminate.
  - pose proof (trimStart_head _ d y Ey) as Hd.
    assert (E' : c :: a = rev (d :: y) ++ rev ws).
    { rewrite <- rev_app_distr, <- E. now rewrite rev_involutive. }
    destruct (rev (d :: y)) as [|c' z] eqn:Er.
    { exfalso. apply (f_equal (@List.length N)) in Er. rewrite length_rev in Er.
      discriminate. }
    injection E' as <- _. subst t.
    unfold trim. rewrite (trimStart_keeps c z Hc).
    unfold trimEnd. rewrite <- Er, rev_involutive, (trimStart_keeps d y Hd).
    reflexivity.
Qed.

Lemma trim_trimmed (s : jsstring) : trim s <> [] -> trimmed (trim s).
Proof. intros H. split; [exact H|apply trim_idempotent]. Qed.

(** *** The shape of the log *)

Lemma exchanges_snoc (texts : list jsstring) (t : jsstring) :
  exchanges (texts ++ [t]) = exchanges texts ++ [user_message t; placeholder].
Proof. unfold exchanges. rewrite flat_map_app. reflexivity. Qed.

Lemma reachable_shaped (w : World) : reachable w -> shaped w.
Proof.
  induction 1 as [t0 clk w H|op w Hr IH].
  - rewrite panel_create_world in H. injection H as <-.
    unfold shaped. simpl. exists []. split; [constructor|reflexivity].
  - pose proof (reachable_consistent w Hr) as Hc.
    destruct (_messages (self w)) as [l| |l] eqn:Em;
    destruct (_inputText (self w)) as [text| |text] eqn:Ei;
    destruct (_thinking (self w)) as [busy| |busy] eqn:Eb;
    unfold consistent in Hc; rewrite ?Em, ?Ei, ?Eb in Hc; try contradiction.
    2,3: destruct (step_disposed op w Em Eb) as (H1 & _);
         unfold shaped; now rewrite H1.
    destruct Hc as [_ Hn].
    unfold shaped in IH. rewrite Em, Eb in IH. destruct IH as (texts & Ht & Hl).
    assert (Hsame : shaped (mkWorld (self w) (now w) (timers w) (wallclock w) (reads w)
                              (trace w)) ).
    { unfold shaped. simpl. rewrite Em, Eb. eauto. }
    assert (Hother : op <> OpSend -> op <> OpTimer -> op <> OpDispose ->
                     shaped (step op w)).
    { intros N1 N2 N3. destruct (step_other op w N1 N2 N3) as (H1 & H2 & _).
      unfold shaped. rewrite H1, H2, Em, Eb. eauto. }
    destruct op; try (apply Hother; discriminate); clear Hother.
    + (* send *)
      rewrite (step_send_live w l text busy Em Ei Eb).
      destruct (trim text) as [|c t'] eqn:Et; simpl.
      { unfold shaped. rewrite Em, Eb. eauto. }
      destruct busy; simpl.
      { unfold shaped. rewrite Em, Eb. eauto. }
      unfold shaped, sent. simpl. exists texts. split; [exact Ht|].
      exists (trim text). rewrite Et. split.
      * rewrite <- Et. apply trim_trimmed. rewrite Et. discriminate.
      * rewrite Hl. reflexivity.
    + (* timeout *)
      pose proof (step_timer_live w l busy Em Eb) as H.
      destruct (pick (timers w)) as [[[due [|]] rest]|] eqn:Ep.
      * rewrite H. pose proof (pick_filter is_reply _ _ _ Ep) as Hf. simpl in Hf.
        unfold replies_pending in Hn. rewrite Hn in Hf.
        destruct busy; [|discriminate].
        destruct Hl as (last & Hlast & ->).
        unfold shaped, replied. simpl. exists (texts ++ [last]). split.
        -- apply Forall_app. split; [exact Ht|]. constructor; [exact Hlast|constructor].
        -- rewrite exchanges_snoc. simpl. rewrite <- app_assoc. reflexivity.
      * destruct H as [tr' ->]. unfold shaped. simpl. rewrite Em, Eb. eauto.
      * rewrite H. unfold shaped. rewrite Em, Eb. eauto.
    + (* disposal *)
      pose proof (reachable_undisposed w Hr l Em) as Eg.
      unfold shaped. simpl. unfold dispose. rewrite Eg. exact I.
Qed.

Lemma step_input_fields (w : World) (old value : jsstring) :
  _inputText (self w) = Live old ->
  self (step (OpInput value) w) = fput f_inputText (Live value) (self w) /\
  timers (step (OpInput value) w) = timers w /\
  now (step (OpInput value) w) = now w.
Proof.
  destruct w as [[m i b r g] n ts clk k tr]. simpl. intros ->.
  unfold task, on_input, bind, set, emit, with_self, with_trace. simpl.
  unfold jsstring_eqb. destruct (list_eq_dec N.eq_dec old value) as [->|]; simpl; auto.
Qed.

(** *** Statements *)

(** X1.  The send button carries the class [disabled] exactly when a click on
    it would do nothing: on a panel that is alive, if the class is set the
    send leaves the world as it was, and if it is not set the send appends
    the trimmed text as one user message. *)
Theorem send_button_matches_guard (w : World) l text busy :
  _messages (self w) = Live l ->
  _inputText (self w) = Live text ->
  _thinking (self w) = Live busy ->
  exists d,
    send_disabled w = Ok d w /\
    d = (negb (truthy (trim text)) || busy) /\
    (d = true -> step OpSend w = w) /\
    (d = false ->
       _messages (self (step OpSend w)) = Live (l ++ [user_message (trim text)]) /\
       _thinking (self (step OpSend w)) = Live true /\
       _inputText (self (step OpSend w)) = Live []).
Proof.
  intros Em Ei Eb. exists (negb (truthy (trim text)) || busy).
  split.
  { destruct w as [[m i b r g] n ts clk k tr]. simpl in *. subst.
    unfold send_disabled, bind, get, must, ret. simpl. destruct busy; reflexivity. }
  split; [reflexivity|].
  rewrite (step_send_live w l text busy Em Ei Eb).
  split; intros ->; [reflexivity|]. unfold sent. simpl. auto.
Qed.

(** X1 on the panel where the user typed "hi": the button is enabled. *)
Lemma send_button_matches_guard_witness :
  send_disabled panel_hi = Ok false panel_hi /\
  _messages (self (step OpSend panel_hi)) = Live [welcome; user_message (lit "hi")].
Proof.
  destruct (send_button_matches_guard panel_hi [welcome] (lit "hi") false
              eq_refl eq_refl eq_refl) as (d & H1 & H2 & _ & H4).
  assert (Hd : d = false) by (rewrite H2; reflexivity).
  subst d. split; [exact H1|]. exact (proj1 (H4 eq_refl)).
Defined.

(** X2.  In every state a panel can be in, while it is alive, exactly one
    placeholder reply is in the timer queue when the busy flag is set and
    none when it is clear: there is never more than one reply outstanding. *)
Theorem one_reply_while_busy (w : World) (busy : bool) :
  reachable w ->
  _thinking (self w) = Live busy ->
  replies_pending w = (if busy then 1 else 0)%nat.
Proof.
  intros Hr Eb. apply reachable_consistent in Hr. unfold consistent in Hr.
  rewrite Eb in Hr.
  destruct (_messages (self w)); destruct (_inputText (self w)); try contradiction.
  exact (proj2 Hr).
Qed.

(** X2 on the panel after the send of "hi". *)
Lemma one_reply_while_busy_witness :
  reachable (step OpSend panel_hi) /\ replies_pending (step OpSend panel_hi) = 1%nat.
Proof.
  assert (Hr : reachable (step OpSend panel_hi)) by (apply reach_step, panel_hi_reachable).
  split; [exact Hr|].
  exact (one_reply_while_busy (step OpSend panel_hi) true Hr eq_refl).
Defined.

(** X3.  In every state a panel can be in, the log of a panel that is alive
    is the welcome message, then pairs of a user message and the placeholder
    reply, then, exactly when the busy flag is set, one user message that
    awaits its reply.  Every user message is a non-empty trimmed text.  So
    the log has an odd number of entries when the panel is idle and an even
    number while it is busy. *)
Theorem log_is_exchanges (w : World) l (busy : bool) :
  reachable w ->
  _messages (self w) = Live l ->
  _thinking (self w) = Live busy ->
  exists texts,
    Forall trimmed texts /\
    (if busy
     then exists last, trimmed last /\
            l = welcome :: exchanges texts ++ [user_message last]
     else l = welcome :: exchanges texts) /\
    List.length l = (1 + 2 * List.length texts + (if busy then 1 else 0))%nat.
Proof.
  intros Hr Em Eb. apply reachable_shaped in Hr. unfold shaped in Hr.
  rewrite Em, Eb in Hr. destruct Hr as (texts & Ht & Hl).
  exists texts. split; [exact Ht|]. split; [exact Hl|].
  assert (Hlen : forall ts, List.length (exchanges ts) = (2 * List.length ts)%nat).
  { induction ts as [|t ts IH]; [reflexivity|].
    change (exchanges (t :: ts)) with (user_message t :: placeholder :: exchanges ts).
    simpl List.length. rewrite IH. lia. }
  destruct busy.
  - destruct Hl as (last & _ & ->). simpl. rewrite length_app, Hlen. simpl. lia.
  - rewrite Hl. simpl. rewrite Hlen. lia.
Qed.

(** X3 on the panel after a whole exchange. *)
Lemma log_is_exchanges_witness :
  let w := steps [OpSend; OpTimer; OpTimer] panel_hi in
  reachable w /\
  exists texts,
    Forall trimmed texts /\
    [welcome; user_message (lit "hi"); placeholder] = welcome :: exchanges texts.
Proof.
  assert (Hr : reachable (steps [OpSend; OpTimer; OpTimer] panel_hi)).
  { apply (reach_step OpTimer (step OpTimer (step OpSend panel_hi))),
      (reach_step OpTimer (step OpSend panel_hi)), (reach_step OpSend panel_hi),
      panel_hi_reachable. }
  split; [exact Hr|].
  destruct (log_is_exchanges (steps [OpSend; OpTimer; OpTimer] panel_hi)
              [welcome; user_message (lit "hi"); placeholder] false Hr eq_refl eq_refl)
    as (texts & H1 & H2 & _).
  exists texts. split; [exact H1|exact H2].
Defined.

(** X4.  No message that a panel ever holds carries a suggested formula or an
    error, so [_buildMessage] never builds the formula block with its Apply
    and Preview buttons, nor the error line. *)
Theorem no_formula_or_error_shown (w : World) l :
  reachable w ->
  _messages (self w) = Live l ->
  Forall (fun msg => formula msg = None /\ error msg = None /\
                     shows_formula msg = false /\ shows_error msg = false) l.
Proof.
  intros Hr Em. pose proof (reachable_consistent w Hr) as Hc.
  apply reachable_shaped in Hr. unfold shaped in Hr. unfold consistent in Hc.
  rewrite Em in Hr, Hc.
  destruct (_inputText (self w)); try contradiction.
  destruct (_thinking (self w)) as [busy| |busy]; try contradiction.
  destruct Hr as (texts & _ & Hl).
  assert (Hex : forall ts,
             Forall (fun msg => formula msg = None /\ error msg = None /\
                                shows_formula msg = false /\ shows_error msg = false)
                    (exchanges ts)).
  { induction ts as [|t ts IH]; simpl; [constructor|].
    constructor; [repeat split|]. constructor; [repeat split|exact IH]. }
  destruct busy.
  - destruct Hl as (last & _ & ->). constructor; [repeat split|].
    apply Forall_app. split; [apply Hex|]. constructor; [repeat split|constructor].
  - rewrite Hl. constructor; [repeat split|apply Hex].
Qed.

(** X4 on the panel after a whole exchange. *)
Lemma no_formula_or_error_shown_witness :
  Forall (fun msg => formula msg = None /\ error msg = None /\
                     shows_formula msg = false /\ shows_error msg = false)
         [welcome; user_message (lit "hi"); placeholder].
Proof.
  assert (Hr : reachable (steps [OpSend; OpTimer; OpTimer] panel_hi)).
  { apply (reach_step OpTimer (step OpTimer (step OpSend panel_hi))),
      (reach_step OpTimer (step OpSend panel_hi)), (reach_step OpSend panel_hi),
      panel_hi_reachable. }
  exact (no_formula_or_error_shown _ _ Hr eq_refl).
Defined.

(** X5.  On a panel that is alive, two sends in a row do what one does: the
    second finds the busy flag set, or the text as blank as the first did. *)
Theorem double_send_is_single (w : World) :
  alive w -> step OpSend (step OpSend w) = step OpSend w.
Proof.
  intros (l & text & busy & Em & Ei & Eb).
  rewrite (step_send_live w l text busy Em Ei Eb).
  destruct (negb (truthy (trim text)) || busy) eqn:E.
  - rewrite (step_send_live w l text busy Em Ei Eb), E. reflexivity.
  - rewrite (step_send_live (sent w l text) _ [] true eq_refl eq_refl eq_refl).
    reflexivity.
Qed.

(** X5 on the panel where the user typed "hi". *)
Lemma double_send_is_single_witness :
  alive panel_hi /\ step OpSend (step OpSend panel_hi) = step OpSend panel_hi.
Proof.
  assert (Ha : alive panel_hi) by (exists [welcome], (lit "hi"), false; repeat split).
  split; [exact Ha|]. exact (double_send_is_single panel_hi Ha).
Defined.

(** X6.  After an accepted send the panel refuses further sends for 1500 ms
    of loop time and takes them again from then on: whatever is typed and
    sent before the delay has elapsed leaves the log as the send left it;
    text typed and sent once it has elapsed is appended after the
    placeholder reply. *)
Theorem busy_for_1500_ms (w : World) l (text text' : jsstring) :
  reachable w ->
  _messages (self w) = Live l ->
  _inputText (self w) = Live text ->
  _thinking (self w) = Live false ->
  trim text <> [] ->
  let w1 := step OpSend w in
  let m := user_message (trim text) in
  (forall t fuel, (t < now w + 1500)%N -> (List.length (timers w1) <= fuel)%nat ->
     exists w2,
       run_until run_callback t fuel w1 = Some w2 /\
       _messages (self (step OpSend (step (OpInput text') w2))) = Live (l ++ [m])) /\
  (forall t fuel, (now w + 1500 <= t)%N -> (List.length (timers w1) < fuel)%nat ->
     trim text' <> [] ->
     exists w2,
       run_until run_callback t fuel w1 = Some w2 /\
       _messages (self (step OpSend (step (OpInput text') w2)))
         = Live (l ++ [m; placeholder; user_message (trim text')])).
Proof.
  intros Hr Em Ei Eb Ht w1 m.
  assert (E1 : w1 = sent w l text).
  { unfold w1. rewrite (step_send_live w l text false Em Ei Eb).
    destruct (trim text); [congruence|reflexivity]. }
  pose proof (reachable_consistent w Hr) as Hc.
  unfold consistent in Hc. rewrite Em, Ei, Eb in Hc. destruct Hc as [_ Hn].
  pose proof (no_reply_pending w Hn) as Hnone.
  rewrite E1. split.
  - intros t fuel Hlt Hlen.
    destruct (run_until_quiet t fuel (sent w l text)) as (w2 & H1 & H2 & _);
      [|exact Hlen|].
    { intros d Hd. unfold sent in Hd. simpl in Hd.
      apply in_app_or in Hd as [Hd|[Hd|[Hd|[]]]]; try discriminate.
      - now apply Hnone in Hd.
      - injection Hd as <-. exact Hlt. }
    exists w2. split; [exact H1|].
    assert (Ei2 : _inputText (self w2) = Live []) by (rewrite H2; reflexivity).
    destruct (step_input_fields w2 [] text' Ei2) as (F & _).
    rewrite (step_send_live (step (OpInput text') w2) (l ++ [m]) text' true);
      try (rewrite F, H2; reflexivity).
    rewrite orb_true_r, F, H2. reflexivity.
  - intros t fuel Hle Hlen Ht'.
    destruct (run_until_reply t fuel (sent w l text) (l ++ [m]) (now w + 1500)%N)
      as (w2 & H1 & H2 & _); try reflexivity; try assumption.
    { unfold replies_pending, sent. simpl. rewrite filter_reply_app.
      unfold replies_pending in Hn. rewrite Hn. reflexivity. }
    { unfold sent. simpl. apply in_or_app. right. right. now left. }
    exists w2. split; [exact H1|].
    assert (Ei2 : _inputText (self w2) = Live []) by (rewrite H2; reflexivity).
    destruct (step_input_fields w2 [] text' Ei2) as (F & _).
    rewrite (step_send_live (step (OpInput text') w2)
               ((l ++ [m]) ++ [placeholder]) text' false);
      try (rewrite F, H2; reflexivity).
    destruct (trim text') eqn:Et'; [congruence|]. simpl.
    rewrite Et', <- !app_assoc. reflexivity.
Qed.

(** X6 on the panel where the user typed "hi", with "more" typed at 700 ms
    and at 1500 ms. *)
Lemma busy_for_1500_ms_witness :
  (reachable panel_hi /\ trim (lit "hi") <> [] /\ trim (lit "more") <> []) /\
  (exists w2,
     run_until run_callback 700 3 (step OpSend panel_hi) = Some w2 /\
     _messages (self (step OpSend (step (OpInput (lit "more")) w2)))
       = Live [welcome; user_message (lit "hi")]) /\
  (exists w2,
     run_until run_callback 1500 3 (step OpSend panel_hi) = Some w2 /\
     _messages (self (step OpSend (step (OpInput (lit "more")) w2)))
       = Live [welcome; user_message (lit "hi"); placeholder; user_message (lit "more")]).
Proof.
  assert (H1 : trim (lit "hi") <> []) by (vm_compute; discriminate).
  assert (H2 : trim (lit "more") <> []) by (vm_compute; discriminate).
  split; [split; [exact panel_hi_reachable|split; assumption]|].
  destruct (busy_for_1500_ms panel_hi [welcome] (lit "hi") (lit "more")
              panel_hi_reachable eq_refl eq_refl eq_refl H1) as [A B].
  split.
  - apply (A 700%N 3%nat); [vm_compute; reflexivity|vm_compute; lia].
  - apply (B 1500%N 3%nat); [vm_compute; discriminate|vm_compute; lia|exact H2].
Defined.

(** X7.  On a panel that was disposed a send fails and changes nothing but
    the console.  If nothing was typed since the disposal, the input buffer
    reads [undefined] and [_sendMessage] raises a TypeError at its first
    statement, the [trim].  If text was typed since (the buffer then holds
    it, though the assignment raised), a blank text makes the send return at
    the guard; any other text passes the guard, the busy flag reading
    [undefined], and the [push] on the disposed log raises.  The handler
    passes the exception to [console.error]; the fields stay as they were,
    no timer is set, the log is not touched. *)
Theorem send_on_disposed_panel (w : World) :
  _messages (self w) = Disposed ->
  _thinking (self w) = Disposed ->
  _sendMessage w =
    match _inputText (self w) with
    | Disposed => Throw (TypeError "trim") w
    | Live text | Overwritten text =>
        if truthy (trim text) then Throw (TypeError "push") w else Ok tt w
    end /\
  step OpSend w =
    match _inputText (self w) with
    | Disposed => traced w [ConsoleError (TypeError "trim")]
    | Live text | Overwritten text =>
        if truthy (trim text) then traced w [ConsoleError (TypeError "push")] else w
    end /\
  self (step OpSend w) = self w /\
  timers (step OpSend w) = timers w.
Proof.
  destruct w as [[m i b r g] n ts clk k tr]. simpl. intros -> ->.
  destruct i as [text| |text]; run_js;
    try (destruct (trim text) as [|c t']; simpl); repeat split.
Qed.

(** X7 on the panel where "hi" was typed: disposed, and then disposed with
    "x" typed afterwards. *)
Lemma send_on_disposed_panel_witness :
  let d := step OpDispose panel_hi in
  let d' := step (OpInput (lit "x")) d in
  (_messages (self d) = Disposed /\ _thinking (self d) = Disposed) /\
  (_messages (self d') = Disposed /\ _thinking (self d') = Disposed) /\
  _inputText (self d') = Overwritten (lit "x") /\
  step OpSend d = traced d [ConsoleError (TypeError "trim")] /\
  step OpSend d' = traced d' [ConsoleError (TypeError "push")].
Proof.
  split; [split; reflexivity|]. split; [split; reflexivity|]. split; [reflexivity|].
  split.
  - exact (proj1 (proj2 (send_on_disposed_panel
                           (step OpDispose panel_hi) eq_refl eq_refl))).
  - exact (proj1 (proj2 (send_on_disposed_panel
                           (step (OpInput (lit "x")) (step OpDispose panel_hi))
                           eq_refl eq_refl))).
Defined.

(** X12.  A panel that is alive and not busy does nothing on its own: as
    time passes, whichever timeouts come due (they are scrolls), the log, the
    input buffer and the busy flag stay as they are. *)
Theorem idle_panel_stays_put (w : World) (t : N) (fuel : nat) :
  reachable w ->
  _thinking (self w) = Live false ->
  (List.length (timers w) <= fuel)%nat ->
  exists w2, run_until run_callback t fuel w = Some w2 /\ self w2 = self w.
Proof.
  intros Hr Eb Hlen.
  pose proof (reachable_consistent w Hr) as Hc. unfold consistent in Hc.
  rewrite Eb in Hc.
  destruct (_messages (self w)); destruct (_inputText (self w)); try contradiction.
  destruct Hc as [_ Hn].
  destruct (run_until_quiet t fuel w) as (w2 & H1 & H2 & _); [|exact Hlen|eauto].
  intros d Hd. exfalso. exact (no_reply_pending w Hn d Hd).
Qed.

(** X12 on the panel after a whole exchange, whose last scroll is pending. *)
Lemma idle_panel_stays_put_witness :
  let w := steps [OpSend; OpTimer; OpTimer] panel_hi in
  reachable w /\
  exists w2, run_until run_callback 5000 1 w = Some w2 /\ self w2 = self w.
Proof.
  assert (Hr : reachable (steps [OpSend; OpTimer; OpTimer] panel_hi)).
  { apply (reach_step OpTimer (step OpTimer (step OpSend panel_hi))),
      (reach_step OpTimer (step OpSend panel_hi)), (reach_step OpSend panel_hi),
      panel_hi_reachable. }
  split; [exact Hr|].
  apply (idle_panel_stays_put _ 5000%N 1%nat Hr); [reflexivity|vm_compute; lia].
Defined.

End ChatPanelMore.

(** ** More about AgentModePage *)

Module AgentMore.
Import JS GrainJS AgentModePage AgentSpec AgentRun JSFacts AgentFacts.

#[local] Opaque sample_thoughts sample_actions sample_steps sample_schema
  sample_code sample_memory JSON.stringify jsstring_eqb lit trim create.

(** *** Every event, one by one *)

Lemma step_command_blank (c : jsstring) (w : World) :
  trim c = [] ->
  step (OpCommand c) w =
  mkWorld (self w) (now w) (timers w) (wallclock w) (reads w)
    (trace w ++ [Dom "textarea.value"]).
Proof.
  intros H. unfold step, task, handler, bind.
  rewrite (sendAgentCommand_blank c w H). reflexivity.
Qed.

Lemma step_command_accepts (c : jsstring) (w : World) th :
  _thoughts (self w) = Live th ->
  trim c <> [] ->
  let s' := fput f_thoughts (Live (th ++ [processing (wallclock w (reads w)) c])) (self w) in
  step (OpCommand c) w =
  mkWorld s' (now w) (timers w) (wallclock w) (Datatypes.S (reads w))
    (trace w ++ [ Notify "_thoughts" s'; ConsoleLog [lit "Agent command:"; c];
                  Dom "textarea.value" ]).
Proof.
  intros E H s'. unfold step, task, handler, bind.
  rewrite (sendAgentCommand_accepts c w th E H). unfold emit, with_trace. cbn.
  rewrite <- app_assoc. reflexivity.
Qed.

(** No event touches the schema, the generated code, the selected action,
    the auto-scroll and live-preview flags, the timers or the wall clock;
    and the action, step and memory logs, where they are alive, are left as
    they were or emptied. *)
Lemma step_frame (op : Op) (w : World) :
  _schema (self (step op w)) = _schema (self w) /\
  _generatedCode (self (step op w)) = _generatedCode (self w) /\
  _selectedAction (self (step op w)) = _selectedAction (self w) /\
  _autoScroll (self (step op w)) = _autoScroll (self w) /\
  _livePreviewEnabled (self (step op w)) = _livePreviewEnabled (self w) /\
  timers (step op w) = timers w /\
  wallclock (step op w) = wallclock w /\
  (forall l, _actions (self w) = Live l ->
     _actions (self (step op w)) = _actions (self w) \/
     _actions (self (step op w)) = Live []) /\
  (forall l, _executionSteps (self w) = Live l ->
     _executionSteps (self (step op w)) = _executionSteps (self w) \/
     _executionSteps (self (step op w)) = Live []) /\
  (forall l, _memoryContext (self w) = Live l ->
     _memoryContext (self (step op w)) = _memoryContext (self w) \/
     _memoryContext (self (step op w)) = Live []).
Proof.
  open_page w. destruct op.
  - unfold step, handler, task, bind, _sendAgentCommand.
    destruct (trim text); cbn; [repeat split; auto|].
    run_page. destruct th as [l| |l]; cbn; repeat split; auto.
  - run_page. destruct p as [[|]| |[|]]; cbn; repeat split; auto.
  - run_page.
    destruct th as [l1| |[|x1 l1]]; cbn; try (repeat split; auto; fail);
    destruct ac as [l2| |[|x2 l2]]; cbn; try (repeat split; auto; discriminate);
    destruct st as [l3| |[|x3 l3]]; cbn; try (repeat split; auto; discriminate);
    destruct mem as [l4| |[|x4 l4]]; cbn; repeat split; auto; discriminate.
  - cbn. repeat split; auto.
  - cbn. repeat split; auto.
  - cbn. repeat split; auto.
Qed.

Lemma step_pause_flag (op : Op) (w : World) (b : bool) :
  _isPaused (self w) = Live b ->
  _isPaused (self (step op w)) =
  Live (match op with OpTogglePause => negb b | _ => b end).
Proof.
  open_page w. cbn. intros ->. destruct op.
  - unfold step, handler, task, bind, _sendAgentCommand.
    destruct (trim text); cbn; [reflexivity|].
    run_page. destruct th as [l| |l]; reflexivity.
  - run_page. destruct b; reflexivity.
  - run_page.
    destruct th as [l1| |[|x1 l1]]; cbn; try reflexivity;
    destruct ac as [l2| |[|x2 l2]]; cbn; try reflexivity;
    destruct st as [l3| |[|x3 l3]]; cbn; try reflexivity;
    destruct mem as [l4| |[|x4 l4]]; reflexivity.
  - reflexivity.
  - reflexivity.
  - reflexivity.
Qed.

Lemma step_quiet (op : Op) (w : World) :
  (forall c, op <> OpCommand c) -> op <> OpClear ->
  _thoughts (self (step op w)) = _thoughts (self w) /\
  _actions (self (step op w)) = _actions (self w) /\
  reads (step op w) = reads w.
Proof.
  intros N1 N2. open_page w.
  destruct op as [text| | | | |name]; [exfalso; now apply (N1 text)| | | | |];
    try congruence.
  - run_page. destruct p as [[|]| |[|]]; cbn; auto.
  - cbn. auto.
  - cbn. auto.
  - cbn. auto.
Qed.

Lemma step_clear_logs (w : World) th ac :
  _thoughts (self w) = Live th ->
  _actions (self w) = Live ac ->
  _thoughts (self (step OpClear w)) = Live [] /\
  _actions (self (step OpClear w)) = Live [] /\
  reads (step OpClear w) = reads w.
Proof.
  open_page w. cbn. intros -> ->. run_page.
  destruct st as [l3| |[|x3 l3]]; cbn; auto;
    destruct mem as [l4| |[|x4 l4]]; cbn; auto.
Qed.

Lemma sorted_snoc (l : list Z) (x : Z) :
  StronglySorted Z.le l -> Forall (fun y => (y <= x)%Z) l ->
  StronglySorted Z.le (l ++ [x]).
Proof.
  induction 1 as [|a l Hs IH Ha]; intros Hb; simpl.
  - constructor; constructor.
  - inversion Hb as [|? ? Hax Hlx]; subst. constructor; [now apply IH|].
    apply Forall_app. split; [exact Ha|]. constructor; [exact Hax|constructor].
Qed.

Lemma page0_reachable : reachable page0.
Proof.
  unfold page0, page_at.
  destruct (page_create_world 0 (clock_at 1700000000000)) as [tr E].
  rewrite E. apply (reach_create 0 (clock_at 1700000000000)). exact E.
Qed.

Lemma page0_world :
  exists tr, page0 = mkWorld (seeded (clock_at 1700000000000)) 0 []
                       (clock_at 1700000000000) 8 tr.
Proof.
  unfold page0, page_at.
  destruct (page_create_world 0 (clock_at 1700000000000)) as [tr E].
  rewrite E. now exists tr.
Qed.

#[local] Opaque page_at page0.

(** The invariant behind the order of the logs. *)
Lemma reachable_chronological (w : World) :
  reachable w ->
  monotone (wallclock w) ->
  exists th ac,
    _thoughts (self w) = Live th /\
    _actions (self w) = Live ac /\
    chronological (map AgentThought.timestamp th) /\
    Forall (fun x => (AgentThought.timestamp x <= wallclock w (reads w))%Z) th /\
    chronological (map AgentAction.timestamp ac).
Proof.
  induction 1 as [t0 clk w H|op w Hr IH]; intros Hm.
  - destruct (page_create_world t0 clk) as [tr E]. rewrite E in H.
    injection H as <-. cbn in Hm. cbn [self wallclock reads]. unfold seeded. cbn.
    do 2 eexists. split; [reflexivity|]. split; [reflexivity|].
    pose proof (Hm 0 1 ltac:(lia))%nat. pose proof (Hm 1 2 ltac:(lia))%nat.
    pose proof (Hm 2 3 ltac:(lia))%nat. pose proof (Hm 3 8 ltac:(lia))%nat.
    pose proof (Hm 4 5 ltac:(lia))%nat. pose proof (Hm 5 6 ltac:(lia))%nat.
    pose proof (Hm 6 7 ltac:(lia))%nat.
    with_strategy transparent [sample_thoughts sample_actions]
      (unfold sample_thoughts, sample_actions).
    unfold chronological. cbn.
    repeat split; repeat constructor; cbn; lia.
  - destruct (step_frame op w) as (_ & _ & _ & _ & _ & _ & Hclk & _).
    rewrite Hclk in Hm. rewrite Hclk.
    destruct (IH Hm) as (th & ac & E1 & E2 & S1 & B1 & S2).
    destruct op as [text| | | | |name].
    + (* command *)
      destruct (list_eq_dec N.eq_dec (trim text) []) as [Hb|Hb].
      * rewrite (step_command_blank text w Hb). cbn. eauto 10.
      * rewrite (step_command_accepts text w th E1 Hb). cbn. rewrite E2.
        exists (th ++ [processing (wallclock w (reads w)) text]), ac.
        split; [reflexivity|]. split; [reflexivity|].
        rewrite map_app. cbn. split; [|split; [|exact S2]].
        -- apply sorted_snoc; [exact S1|]. rewrite Forall_map. exact B1.
        -- pose proof (Hm (reads w) (Datatypes.S (reads w)) ltac:(lia)).
           apply Forall_app. split.
           ++ eapply Forall_impl; [|exact B1]. cbn. intros; lia.
           ++ constructor; [cbn; lia|constructor].
    + destruct (step_quiet OpTogglePause w) as (H1 & H2 & H3); try discriminate.
      rewrite H1, H2, H3. eauto 10.
    + destruct (step_clear_logs w th ac E1 E2) as (H1 & H2 & H3).
      rewrite H1, H2. exists [], []. unfold chronological. cbn.
      repeat split; constructor.
    + destruct (step_quiet OpSettings w) as (H1 & H2 & H3); try discriminate.
      rewrite H1, H2, H3. eauto 10.
    + destruct (step_quiet OpExit w) as (H1 & H2 & H3); try discriminate.
      rewrite H1, H2, H3. eauto 10.
    + destruct (step_quiet (OpTogglePermission name) w) as (H1 & H2 & H3);
        try discriminate.
      rewrite H1, H2, H3. eauto 10.
Qed.

Lemma stamped_facts (clk : nat -> Z) (commands : list jsstring) :
  forall k,
    List.length (stamped clk k commands)
      = List.length (filter (fun c => truthy (trim c)) commands) /\
    map AgentThought.message (stamped clk k commands)
      = map (fun c => lit "Processing: " ++ [dquote] ++ c ++ [dquote])
            (filter (fun c => truthy (trim c)) commands) /\
    map AgentThought.timestamp (stamped clk k commands)
      = map clk (seq k (List.length (stamped clk k commands))).
Proof.
  induction commands as [|c cs IH]; intros k; cbn; [auto|].
  destruct (truthy (trim c)); cbn.
  - destruct (IH (Datatypes.S k)) as (H1 & H2 & H3). rewrite H1, H2, H3, H1. auto.
  - apply IH.
Qed.

(** *** Statements *)

(** X8.  A batch of commands leaves one thought for each command that does
    not trim to nothing, in the order of the commands, after the thoughts
    that were there, each with the message [Processing: "<command>"] and the
    next reading of the wall clock; blank commands leave nothing and read no
    time; no other field changes. *)
Theorem commands_append_in_order (commands : list jsstring) :
  forall (w : World) th,
    _thoughts (self w) = Live th ->
    let w' := steps (map OpCommand commands) w in
    let added := stamped (wallclock w) (reads w) commands in
    let accepted := filter (fun c => truthy (trim c)) commands in
    self w' = fput f_thoughts (Live (th ++ added)) (self w) /\
    reads w' = (reads w + List.length accepted)%nat /\
    List.length added = List.length accepted /\
    map AgentThought.message added
      = map (fun c => lit "Processing: " ++ [dquote] ++ c ++ [dquote]) accepted /\
    map AgentThought.timestamp added
      = map (wallclock w) (seq (reads w) (List.length accepted)).
Proof.
  assert (Hmain : forall (w : World) th,
             _thoughts (self w) = Live th ->
             self (steps (map OpCommand commands) w)
               = fput f_thoughts (Live (th ++ stamped (wallclock w) (reads w) commands))
                   (self w) /\
             reads (steps (map OpCommand commands) w)
               = (reads w + List.length (stamped (wallclock w) (reads w) commands))%nat).
  { induction commands as [|c cs IH]; intros w th E.
    - cbn. rewrite app_nil_r, Nat.add_0_r. split; [|reflexivity].
      open_page w. cbn in E. subst. reflexivity.
    - cbn [map steps fold_left stamped].
      change (fold_left (fun w op => step op w) (map OpCommand cs) (step (OpCommand c) w))
        with (steps (map OpCommand cs) (step (OpCommand c) w)).
      destruct (trim c) as [|x t'] eqn:Et.
      + rewrite (step_command_blank c w Et). cbn [truthy].
        match goal with |- context [steps _ ?v] => destruct (IH v th E) as [H1 H2] end.
        cbn [self wallclock reads] in *. auto.
      + assert (Hne : trim c <> []) by (rewrite Et; discriminate).
        rewrite (step_command_accepts c w th E Hne). cbn [truthy].
        match goal with |- context [steps _ ?v] =>
          destruct (IH v (th ++ [processing (wallclock w (reads w)) c])) as [H1 H2]
        end.
        { open_page w. reflexivity. }
        cbn [self wallclock reads] in *. rewrite H1, H2. cbn [List.length].
        split; [|lia]. rewrite <- app_assoc. open_page w. reflexivity. }
  intros w th E w' added accepted.
  destruct (Hmain w th E) as [H1 H2].
  destruct (stamped_facts (wallclock w) commands (reads w)) as (F1 & F2 & F3).
  unfold w', added, accepted. rewrite H2, F1. repeat split; auto.
  rewrite F3, F1. reflexivity.
Qed.

(** X8 on the seeded page, with a blank command between two others. *)
Lemma commands_append_in_order_witness :
  exists th,
    _thoughts (self page0) = Live th /\
    List.length
      (stamped (wallclock page0) (reads page0) [lit "sum"; lit "  "; lit "sort"]) = 2%nat /\
    _thoughts (self (steps (map OpCommand [lit "sum"; lit "  "; lit "sort"]) page0))
      = Live (th ++ stamped (wallclock page0) (reads page0)
                      [lit "sum"; lit "  "; lit "sort"]).
Proof.
  pose proof page0_fields as Hs.
  eexists. split; [rewrite Hs; reflexivity|].
  destruct (commands_append_in_order [lit "sum"; lit "  "; lit "sort"] page0 _
              ltac:(rewrite Hs; reflexivity)) as (H1 & _ & H3 & _).
  split.
  - rewrite H3. vm_compute. reflexivity.
  - rewrite H1. reflexivity.
Defined.

(** X9.  If the wall clock never runs backwards, then in every state a page
    can be in the thought log and the action log are in chronological
    order: timestamps never decrease along either log. *)
Theorem logs_are_chronological (w : World) :
  reachable w ->
  monotone (wallclock w) ->
  exists th ac,
    _thoughts (self w) = Live th /\
    _actions (self w) = Live ac /\
    chronological (map AgentThought.timestamp th) /\
    chronological (map AgentAction.timestamp ac).
Proof.
  intros Hr Hm.
  destruct (reachable_chronological w Hr Hm) as (th & ac & H1 & H2 & H3 & _ & H5).
  exists th, ac. auto.
Qed.

(** X9 on the seeded page after a command. *)
Lemma logs_are_chronological_witness :
  reachable (step (OpCommand (lit "sum")) page0) /\
  exists th,
    _thoughts (self (step (OpCommand (lit "sum")) page0)) = Live th /\
    chronological (map AgentThought.timestamp th).
Proof.
  assert (Hr : reachable (step (OpCommand (lit "sum")) page0))
    by (apply reach_step, page0_reachable).
  split; [exact Hr|].
  assert (Hm : monotone (wallclock (step (OpCommand (lit "sum")) page0))).
  { destruct (step_frame (OpCommand (lit "sum")) page0) as (_ & _ & _ & _ & _ & _ & -> & _).
    destruct page0_world as [tr ->]. cbn. intros i j _. unfold clock_at. lia. }
  destruct (logs_are_chronological _ Hr Hm) as (th & ac & H1 & _ & H3 & _).
  exists th. auto.
Defined.

(** X10.  What the constructor loads besides the logs is never replaced: in
    every state a page can be in, the schema, the generated code, the
    selected action and the auto-scroll and live-preview flags are those of
    the constructor; the action, execution-step and memory logs are the
    sample ones or empty; and no timer is ever set. *)
Theorem construction_data_stays (w : World) :
  reachable w ->
  let clk := wallclock w in
  let actions := sample_actions (clk 4%nat) (clk 5%nat) (clk 6%nat) (clk 7%nat) in
  _schema (self w) = Live (JSON.stringify sample_schema 2) /\
  _generatedCode (self w) = Live sample_code /\
  _selectedAction (self w) = Live (nth_error actions 2) /\
  _autoScroll (self w) = Live true /\
  _livePreviewEnabled (self w) = Live true /\
  (_actions (self w) = Live actions \/ _actions (self w) = Live []) /\
  (_executionSteps (self w) = Live sample_steps \/ _executionSteps (self w) = Live []) /\
  (_memoryContext (self w) = Live sample_memory \/ _memoryContext (self w) = Live []) /\
  timers w = [].
Proof.
  induction 1 as [t0 clk w H|op w Hr IH].
  - destruct (page_create_world t0 clk) as [tr E]. rewrite E in H.
    injection H as <-. cbn. repeat split; auto.
  - destruct IH as (I1 & I2 & I3 & I4 & I5 & I6 & I7 & I8 & I9).
    assert (A6 : exists l, _actions (self w) = Live l)
      by (destruct I6 as [E|E]; rewrite E; eauto).
    assert (A7 : exists l, _executionSteps (self w) = Live l)
      by (destruct I7 as [E|E]; rewrite E; eauto).
    assert (A8 : exists l, _memoryContext (self w) = Live l)
      by (destruct I8 as [E|E]; rewrite E; eauto).
    destruct A6 as [l6 A6], A7 as [l7 A7], A8 as [l8 A8].
    destruct (step_frame op w) as (F1 & F2 & F3 & F4 & F5 & F6 & F7 & F8 & F9 & F10).
    destruct (F8 l6 A6) as [G8|G8], (F9 l7 A7) as [G9|G9], (F10 l8 A8) as [G10|G10];
      cbv zeta in *; rewrite F1, F2, F3, F4, F5, F6, F7, G8, G9, G10;
      repeat split; auto.
Qed.

(** X10 on the seeded page after a command, a pause and a clear. *)
Lemma construction_data_stays_witness :
  let w := steps [OpCommand (lit "sum"); OpTogglePause; OpClear] page0 in
  reachable w /\
  _generatedCode (self w) = Live sample_code /\ timers w = [].
Proof.
  assert (Hr : reachable (steps [OpCommand (lit "sum"); OpTogglePause; OpClear] page0)).
  { apply (reach_step OpClear (step OpTogglePause (step (OpCommand (lit "sum")) page0))),
      (reach_step OpTogglePause (step (OpCommand (lit "sum")) page0)),
      (reach_step (OpCommand (lit "sum")) page0), page0_reachable. }
  split; [exact Hr|].
  destruct (construction_data_stays _ Hr) as (_ & H2 & _ & _ & _ & _ & _ & _ & H9).
  split; [exact H2|exact H9].
Defined.

(** X11.  The pause flag after any sequence of events is the flag before,
    flipped once for each click on the pause button: no other event touches
    it, and two clicks restore it. *)
Theorem pause_flag_counts_clicks (ops : list Op) :
  forall (w : World) (b : bool),
    _isPaused (self w) = Live b ->
    _isPaused (self (steps ops w)) = Live (xorb b (Nat.odd (pause_clicks ops))).
Proof.
  induction ops as [|op ops IH]; intros w b E.
  - cbn. now rewrite xorb_false_r.
  - cbn [steps fold_left].
    change (fold_left (fun w op => step op w) ops (step op w))
      with (steps ops (step op w)).
    pose proof (step_pause_flag op w b E) as H.
    rewrite (IH _ _ H).
    destruct op; cbn [pause_clicks]; try reflexivity.
    rewrite Nat.odd_succ, <- Nat.negb_odd. f_equal.
    destruct b, (Nat.odd (pause_clicks ops)); reflexivity.
Qed.

(** X11 on the seeded page: two clicks around a command. *)
Lemma pause_flag_counts_clicks_witness :
  _isPaused (self page0) = Live false /\
  _isPaused (self (steps [OpTogglePause; OpCommand (lit "sum"); OpTogglePause] page0))
    = Live false.
Proof.
  assert (E : _isPaused (self page0) = Live false)
    by (rewrite page0_fields; reflexivity).
  split; [exact E|].
  exact (pause_flag_counts_clicks
           [OpTogglePause; OpCommand (lit "sum"); OpTogglePause] page0 false E).
Defined.

End AgentMore.
